(** * Build-target selection and packaging for the optimized CI build

    A shallow embedding of [ci/optimized_targets.py]: the optimizer classes
    [OptimizedBuildTarget], [NullOptimizer], [GeneralTestsOptimizer] and the
    change-description reader [ChangeInfo], followed by the properties of
    the selection and packaging functions.

    Python [str] is [string], [list] is [list], [set] is [gset string],
    [dict] is [gmap string _]; a value that may be [None] is an [option];
    a raised exception is the [Raise] case of [res]. *)

From Stdlib Require Import ZArith Ascii String.
From stdpp Require Import gmap strings list sets.

Local Open Scope string_scope.
Local Open Scope list_scope.

(** ** Python strings *)

Module Str.

(** [s.startswith(p)] *)
Fixpoint startswith (p s : string) : bool :=
  match p, s with
  | EmptyString, _ => true
  | String a p', String b s' => if decide (a = b) then startswith p' s' else false
  | String _ _, EmptyString => false
  end.

(** [needle in hay] on two strings: [needle] occurs as a contiguous run. *)
Fixpoint contains (needle hay : string) : bool :=
  match hay with
  | EmptyString => startswith needle EmptyString
  | String _ hay' => startswith needle hay || contains needle hay'
  end.

(** [s.endswith(p)] *)
Fixpoint endswith (p s : string) : bool :=
  match s with
  | EmptyString => if decide (p = EmptyString) then true else false
  | String _ s' => if decide (p = s) then true else endswith p s'
  end.

(** [sep.join(l)] *)
Fixpoint join (sep : string) (l : list string) : string :=
  match l with
  | [] => ""
  | [x] => x
  | x :: l' => x +:+ sep +:+ join sep l'
  end.

(** [s.split(c)] for a one-character separator: always at least one field. *)
Fixpoint split (c : ascii) (s : string) : list string :=
  match s with
  | EmptyString => [""]
  | String a s' =>
      if decide (a = c) then "" :: split c s'
      else match split c s' with
           | f :: fs => String a f :: fs
           | [] => [String a ""]
           end
  end.

(** Characters dropped from the left by [s.lstrip(...)]. *)
Fixpoint lstrip (drop : ascii -> bool) (s : string) : string :=
  match s with
  | EmptyString => EmptyString
  | String a s' => if drop a then lstrip drop s' else s
  end.

(** Characters dropped from the right by [s.rstrip(...)]. *)
Fixpoint rstrip (drop : ascii -> bool) (s : string) : string :=
  match s with
  | EmptyString => EmptyString
  | String a s' =>
      match rstrip drop s' with
      | EmptyString => if drop a then EmptyString else String a EmptyString
      | r => String a r
      end
  end.

Definition strip (drop : ascii -> bool) (s : string) : string :=
  rstrip drop (lstrip drop s).

(** [str.isspace] on the code points below 256. *)
Definition isspace (a : ascii) : bool :=
  let n := nat_of_ascii a in
  ((9 <=? n)%nat && (n <=? 13)%nat) || ((28 <=? n)%nat && (n <=? 32)%nat)
  || (n =? 133)%nat || (n =? 160)%nat.

Definition is_char (c : ascii) (a : ascii) : bool :=
  if decide (a = c) then true else false.

Definition nonempty (s : string) : bool :=
  match s with EmptyString => false | _ => true end.

(** [s.rfind(c)]: the index of the last [c] in [s], or [-1]. *)
Fixpoint rfind (c : ascii) (s : string) : Z :=
  match s with
  | EmptyString => (-1)%Z
  | String a s' =>
      let r := rfind c s' in
      if (0 <=? r)%Z then (r + 1)%Z
      else if decide (a = c) then 0%Z else (-1)%Z
  end.

(** [s[:i]] for [0 <= i]. *)
Definition slice_to (i : Z) (s : string) : string :=
  String.substring 0 (Z.to_nat i) s.

(** [c * n] *)
Fixpoint repeat (c : ascii) (n : nat) : string :=
  match n with
  | O => EmptyString
  | S n' => String c (repeat c n')
  end.

End Str.

Definition NL : string := String (ascii_of_nat 10) EmptyString.

(** ** Exceptions and results *)

(** The exceptions the module raises or lets through.  All of them derive
    from Python's [Exception].  A constructor carries the first argument of
    the exception; the text [str(e)] of an exception is not computed. *)
Inductive exn : Type :=
| RuntimeError (msg : string)
| NotImplementedError (msg : string)
| TypeError (msg : string)
| KeyError (key : string)
| AttributeError (name : string)
| IndexError
| ValueError (msg : string)
| OSError (path : string)
| JSONDecodeError
| CollaboratorError (msg : string).

Inductive res (A : Type) : Type :=
| Ok (a : A)
| Raise (e : exn).
Arguments Ok {A} a.
Arguments Raise {A} e.

Definition is_RuntimeError {A} (r : res A) : Prop :=
  match r with Raise (RuntimeError _) => True | _ => False end.

(** ** [OptimizedBuildTarget._generate_zip_options_for_items] *)

(** Truth value of a [list[str] | None] argument: [None] and [[]] are false. *)
Definition truthy {A} (l : option (list A)) : bool :=
  match l with
  | Some (_ :: _) => true
  | _ => false
  end.

Definition items {A} (l : option (list A)) : list A := default [] l.

(** [for x in xs: seg.append(flag); seg.append(x)] *)
Definition flagged (flag : string) (xs : list string) : list string :=
  xs ≫= (λ x, [flag; x]).

Definition _generate_zip_options_for_items
    (prefix relative_root : string)
    (list_files files directories : option (list string)) : res (list string) :=
  if negb (truthy list_files) && negb (truthy files) && negb (truthy directories)
  then Raise (RuntimeError
         ("No items specified to be added to zip! Prefix: " +:+ prefix
          +:+ ", Relative root: " +:+ relative_root))
  else
    let command_segment := [] in
    let command_segment :=
      if Str.nonempty prefix then command_segment ++ ["-P"; prefix]
      else command_segment in
    let command_segment :=
      if Str.nonempty relative_root then command_segment ++ ["-C"; relative_root]
      else command_segment in
    let command_segment :=
      if truthy list_files then command_segment ++ flagged "-l" (items list_files)
      else command_segment in
    let command_segment :=
      if truthy files then command_segment ++ flagged "-f" (items files)
      else command_segment in
    let command_segment :=
      if truthy directories then command_segment ++ flagged "-D" (items directories)
      else command_segment in
    Ok command_segment.

(** ** The monad of fallible computations *)

Global Instance res_ret : MRet res := λ _ a, Ok a.
Global Instance res_bind : MBind res := λ _ _ f r,
  match r with
  | Ok a => f a
  | Raise e => Raise e
  end.

(** [for x in l: acc = body(acc, x)], stopping at the first exception. *)
Fixpoint for_res {A S} (l : list A) (acc : S) (body : S → A → res S) : res S :=
  match l with
  | [] => Ok acc
  | x :: l' =>
      match body acc x with
      | Ok acc' => for_res l' acc' body
      | Raise e => Raise e
      end
  end.

(** A value that must not be [None] where the code uses it ([None + '/'],
    [for x in None], [os.path.dirname(None)] raise [TypeError]). *)
Definition not_none {A} (what : string) (o : option A) : res A :=
  match o with
  | Some a => Ok a
  | None => Raise (TypeError what)
  end.

(** ** [os.path] on POSIX *)

Module os_path.

(** [posixpath.dirname] *)
Definition dirname (p : string) : string :=
  let i := (Str.rfind "/" p + 1)%Z in
  let head := Str.slice_to i p in
  if Str.nonempty head
     && negb (bool_decide (head = Str.repeat "/" (String.length head)))
  then Str.rstrip (Str.is_char "/") head
  else head.

Definition isabs (s : string) : bool := Str.startswith "/" s.

(** [posixpath.join(a, b)] *)
Definition join2 (a b : string) : string :=
  if Str.startswith "/" b then b
  else if negb (Str.nonempty a) || Str.endswith "/" a then a +:+ b
  else a +:+ "/" +:+ b.

(** One or two leading slashes are kept, three or more count as one. *)
Definition initial_slashes (p : string) : nat :=
  if Str.startswith "/" p then
    if Str.startswith "//" p && negb (Str.startswith "///" p) then 2 else 1
  else 0.

Definition normpath_step (slashes : nat) (new_comps : list string)
    (comp : string) : list string :=
  if bool_decide (comp = "" ∨ comp = ".") then new_comps
  else if bool_decide (comp ≠ "..")
          || (bool_decide (slashes = 0) && bool_decide (new_comps = []))
          || bool_decide (last new_comps = Some "..")
  then new_comps ++ [comp]
  else removelast new_comps.

(** [posixpath.normpath] *)
Definition normpath (p : string) : string :=
  if bool_decide (p = "") then "."
  else
    let slashes := initial_slashes p in
    let comps := foldl (normpath_step slashes) [] (Str.split "/" p) in
    let p' := Str.repeat "/" slashes +:+ Str.join "/" comps in
    if Str.nonempty p' then p' else ".".

(** [posixpath.abspath], in the working directory [cwd]. *)
Definition abspath (cwd p : string) : string :=
  if isabs p then normpath p else normpath (join2 cwd p).

Fixpoint common_prefix_length (a b : list string) : nat :=
  match a, b with
  | x :: a', y :: b' => if decide (x = y) then S (common_prefix_length a' b') else 0
  | _, _ => 0
  end.

Definition components (p : string) : list string :=
  filter (λ x, x ≠ "") (Str.split "/" p).

(** [posixpath.relpath(p, start)], in the working directory [cwd]: an empty
    [p] is a [ValueError]. *)
Definition relpath (cwd p start : string) : res string :=
  if negb (Str.nonempty p) then Raise (ValueError "no path specified")
  else
    let start_list := components (abspath cwd start) in
    let path_list := components (abspath cwd p) in
    let i := common_prefix_length start_list path_list in
    let rel_list := replicate (length start_list - i) ".." ++ drop i path_list in
    match rel_list with
    | [] => Ok "."
    | x :: rest => Ok (foldl join2 x rest)
    end.

End os_path.

(** ** [pathlib.Path] on POSIX *)

Module pathlib.

Record Path := { root : string; parts : list string }.

(** [pathlib.Path(s)]: empty and [.] components are dropped. *)
Definition of_str (s : string) : Path :=
  {| root := Str.repeat "/" (os_path.initial_slashes s);
     parts := filter (λ x, x ≠ "" ∧ x ≠ ".") (Str.split "/" s) |}.

(** [str(p)], which is also what an f-string shows. *)
Definition str (p : Path) : string :=
  if negb (Str.nonempty (root p)) && bool_decide (parts p = []) then "."
  else root p +:+ Str.join "/" (parts p).

(** [p / name] *)
Definition div (p : Path) (name : string) : Path :=
  let q := of_str name in
  if Str.nonempty (root q) then q
  else {| root := root p; parts := parts p ++ parts q |}.

End pathlib.

Infix "//" := pathlib.div (at level 40, left associativity).

(** ** [ChangeInfo] *)

(** The JSON document behind [CHANGE_INFO].  Every key is read with
    [dict.get], which yields [None] for a missing key. *)
Record FileInfo := { path : option string }.
Record Revision := { fileInfos : option (list FileInfo) }.
Record Change := {
  projectPath : option string;
  revisions : option (list Revision)
}.
(** [self._change_info_contents]: ['changes'] is read with a subscript. *)
Record ChangeInfo := { changes : option (list Change) }.

Definition subscript_changes (self : ChangeInfo) : res (list Change) :=
  match changes self with
  | Some cs => Ok cs
  | None => Raise (KeyError "changes")
  end.

Module get_changed_paths_loops.

Definition file_info_body (project_path : string)
    (changed_paths : gset string) (file_info : FileInfo) : res (gset string) :=
  file_path ← not_none "path" (path file_info);
  let dir_path := os_path.dirname file_path in
  Ok ({[ project_path +:+ dir_path ]} ∪ changed_paths).

Definition revision_body (project_path : string)
    (changed_paths : gset string) (revision : Revision) : res (gset string) :=
  file_infos ← not_none "fileInfos" (fileInfos revision);
  for_res file_infos changed_paths (file_info_body project_path).

Definition change_body (changed_paths : gset string) (change : Change)
    : res (gset string) :=
  pp ← not_none "projectPath" (projectPath change);
  let project_path := pp +:+ "/" in
  revs ← not_none "revisions" (revisions change);
  for_res revs changed_paths (revision_body project_path).

End get_changed_paths_loops.

Definition get_changed_paths (self : ChangeInfo) : res (gset string) :=
  let changed_paths := ∅ in
  cs ← subscript_changes self;
  for_res cs changed_paths get_changed_paths_loops.change_body.

Module find_changed_files_loops.

Definition file_info_body (project_path : string)
    (changed_files : gset string) (file_info : FileInfo) : res (gset string) :=
  file_path ← not_none "path" (path file_info);
  Ok ({[ project_path +:+ file_path ]} ∪ changed_files).

Definition revision_body (project_path : string)
    (changed_files : gset string) (revision : Revision) : res (gset string) :=
  file_infos ← not_none "fileInfos" (fileInfos revision);
  for_res file_infos changed_files (file_info_body project_path).

Definition change_body (changed_files : gset string) (change : Change)
    : res (gset string) :=
  pp ← not_none "projectPath" (projectPath change);
  let project_path := pp +:+ "/" in
  revs ← not_none "revisions" (revisions change);
  for_res revs changed_files (revision_body project_path).

End find_changed_files_loops.

Definition find_changed_files (self : ChangeInfo) : res (gset string) :=
  let changed_files := ∅ in
  cs ← subscript_changes self;
  for_res cs changed_files find_changed_files_loops.change_body.

(** ** The world around the optimizer *)

(** [subprocess.CompletedProcess] *)
Record CompletedProcess := {
  returncode : Z;
  stdout : string;
  stderr : string
}.

(** [build_context.TestInfo] and the entries of its [extra_options]. *)
Record ExtraOption := {
  key : option string;
  values : option (list string)
}.
Record TestInfo := {
  command : string;
  extra_options : list ExtraOption;
  is_test_mapping : bool
}.

(** What the optimizer does to its collaborators and to the log, in order.
    [LoggingErrorWith text e] is [logging.error(f'{text}{e}')]: the line is
    [text] followed by [str(e)]. *)
Inductive event : Type :=
| SubprocessRun (args : list string)
| LoadChangeInfo (file : option string)
| Discover (tradefed_args : list (option string)) (test_mapping_zip_path : string)
| MetricsInstance
| ReportOptimizedTarget (tgt : string)
| AddTargetArtifact (tgt artifact : string) (size : Z) (targets : gset string)
| LoggingError (msg : string)
| LoggingErrorWith (text : string) (e : exn)
| LoggingInfo (lines : list string)
| Print (modules : gset string).

(** The collaborators, each as the outcome of a call: [os.environ] and
    [os.getcwd()], [subprocess.run], [open] + [json.load] of the change
    description, whether [open(p, 'w')] succeeds, the test discovery agent
    and the metrics agent. *)
Record World := {
  environ : gmap string string;
  getcwd : string;
  subprocess_run : list string → res CompletedProcess;
  json_load : option string → res ChangeInfo;
  writable : string → bool;
  discover_test_mapping_test_modules :
    list (option string) → string → res (list string * list string);
  MetricsAgent_instance : res ();
  report_optimized_target : string → res ();
  add_target_artifact : string → string → Z → gset string → res ()
}.

(** The attributes an optimizer sets on itself after [__init__] (unset until
    then), the files on disk and the trace of events so far. *)
Record State := {
  modules_to_build : option (gset string);
  _general_tests_outputs : option (list string);
  _general_tests_host_outputs : option (list string);
  _general_tests_target_outputs : option (list string);
  _build_outputs : option (list string);
  files : gmap string string;
  trace : list event
}.

Definition initial_state (fs : gmap string string) : State :=
  {| modules_to_build := None; _general_tests_outputs := None;
     _general_tests_host_outputs := None; _general_tests_target_outputs := None;
     _build_outputs := None; files := fs; trace := [] |}.

Definition set_modules_to_build (v : gset string) (st : State) : State :=
  {| modules_to_build := Some v;
     _general_tests_outputs := _general_tests_outputs st;
     _general_tests_host_outputs := _general_tests_host_outputs st;
     _general_tests_target_outputs := _general_tests_target_outputs st;
     _build_outputs := _build_outputs st; files := files st; trace := trace st |}.

Definition set_general_tests_outputs (v : list string) (st : State) : State :=
  {| modules_to_build := modules_to_build st;
     _general_tests_outputs := Some v;
     _general_tests_host_outputs := _general_tests_host_outputs st;
     _general_tests_target_outputs := _general_tests_target_outputs st;
     _build_outputs := _build_outputs st; files := files st; trace := trace st |}.

Definition set_general_tests_host_outputs (v : list string) (st : State) : State :=
  {| modules_to_build := modules_to_build st;
     _general_tests_outputs := _general_tests_outputs st;
     _general_tests_host_outputs := Some v;
     _general_tests_target_outputs := _general_tests_target_outputs st;
     _build_outputs := _build_outputs st; files := files st; trace := trace st |}.

Definition set_general_tests_target_outputs (v : list string) (st : State) : State :=
  {| modules_to_build := modules_to_build st;
     _general_tests_outputs := _general_tests_outputs st;
     _general_tests_host_outputs := _general_tests_host_outputs st;
     _general_tests_target_outputs := Some v;
     _build_outputs := _build_outputs st; files := files st; trace := trace st |}.

Definition set_build_outputs (v : list string) (st : State) : State :=
  {| modules_to_build := modules_to_build st;
     _general_tests_outputs := _general_tests_outputs st;
     _general_tests_host_outputs := _general_tests_host_outputs st;
     _general_tests_target_outputs := _general_tests_target_outputs st;
     _build_outputs := Some v; files := files st; trace := trace st |}.

Definition set_files (v : gmap string string) (st : State) : State :=
  {| modules_to_build := modules_to_build st;
     _general_tests_outputs := _general_tests_outputs st;
     _general_tests_host_outputs := _general_tests_host_outputs st;
     _general_tests_target_outputs := _general_tests_target_outputs st;
     _build_outputs := _build_outputs st; files := v; trace := trace st |}.

Definition add_event (ev : event) (st : State) : State :=
  {| modules_to_build := modules_to_build st;
     _general_tests_outputs := _general_tests_outputs st;
     _general_tests_host_outputs := _general_tests_host_outputs st;
     _general_tests_target_outputs := _general_tests_target_outputs st;
     _build_outputs := _build_outputs st; files := files st;
     trace := trace st ++ [ev] |}.

(** ** The monad of the methods: a world to read, a state to change, and
    an exception or a value at the end. *)

Definition M (A : Type) : Type := World → State → res A * State.

Global Instance M_ret : MRet M := λ _ a _ st, (Ok a, st).
Global Instance M_bind : MBind M := λ _ _ f m w st,
  match m w st with
  | (Ok a, st') => f a w st'
  | (Raise e, st') => (Raise e, st')
  end.

Definition raise {A} (e : exn) : M A := λ _ st, (Raise e, st).
Definition lift {A} (r : res A) : M A := λ _ st, (r, st).
Definition ask {A} (f : World → A) : M A := λ w st, (Ok (f w), st).
Definition call {A} (f : World → res A) : M A := λ w st, (f w, st).
Definition read {A} (f : State → A) : M A := λ _ st, (Ok (f st), st).
Definition modify (f : State → State) : M () := λ _ st, (Ok (), f st).
Definition emit (ev : event) : M () := modify (add_event ev).

(** [self.name], which raises [AttributeError] while the attribute is unset. *)
Definition attribute {A} (name : string) (f : State → option A) : M A :=
  λ _ st, match f st with
          | Some a => (Ok a, st)
          | None => (Raise (AttributeError name), st)
          end.

(** [try: body  except Exception as e: handler(e)] *)
Definition try_except {A} (body : M A) (handler : exn → M A) : M A :=
  λ w st, match body w st with
          | (Ok a, st') => (Ok a, st')
          | (Raise e, st') => handler e w st'
          end.

(** [for x in l: body(x)], stopping at the first exception. *)
Fixpoint for_each {A} (l : list A) (body : A → M ()) : M () :=
  match l with
  | [] => mret ()
  | x :: l' => body x;; for_each l' body
  end.

(** [os.environ.get(name)] *)
Definition environ_get (name : string) : M (option string) :=
  ask (λ w, environ w !! name).

(** [pathlib.Path(v)] for a [v] that may be [None]. *)
Definition Path_of (v : option string) : M pathlib.Path :=
  s ← lift (not_none "expected str, bytes or os.PathLike object, not NoneType" v);
  mret (pathlib.of_str s).

(** [f.readlines()] on the text of a file: the lines with their newlines. *)
Fixpoint readlines (s : string) : list string :=
  match s with
  | EmptyString => []
  | String a s' =>
      if decide (a = ascii_of_nat 10) then NL :: readlines s'
      else match readlines s' with
           | l :: ls => String a l :: ls
           | [] => [String a ""]
           end
  end.

(** What reading in text mode makes of the text of a file: a carriage
    return, alone or followed by a newline, is read as one newline. *)
Fixpoint universal_newlines (s : string) : string :=
  match s with
  | EmptyString => EmptyString
  | String a s' =>
      if decide (a = ascii_of_nat 13) then
        match s' with
        | String b s'' =>
            if decide (b = ascii_of_nat 10)
            then String (ascii_of_nat 10) (universal_newlines s'')
            else String (ascii_of_nat 10) (universal_newlines s')
        | EmptyString => NL
        end
      else String a (universal_newlines s')
  end.

(** [with open(p) as f: f.readlines()] *)
Definition open_readlines (p : string) : M (list string) :=
  λ _ st, match files st !! p with
          | Some text => (Ok (readlines (universal_newlines text)), st)
          | None => (Raise (OSError p), st)
          end.

(** [open(p, 'w')]: the file is created or emptied. *)
Definition open_w (p : string) : M () :=
  λ w st, if writable w p then (Ok (), set_files (<[p := ""]> (files st)) st)
          else (Raise (OSError p), st).

(** [f.write(text)] on a file opened at [p]. *)
Definition write (p text : string) : M () :=
  modify (λ st, set_files (<[p := default "" (files st !! p) +:+ text]> (files st)) st).

(** ** [OptimizedBuildTarget] *)

(** The constructor arguments the methods read: [self.target],
    [self.build_context.enabled_build_features] and [self.test_infos]. *)
Record Optimizer := {
  target : string;
  enabled_build_features : gset string;
  test_infos : list TestInfo
}.

(** The methods a subclass overrides. *)
Class Methods := {
  type_name : string;
  get_enabled_flag : Optimizer → M string;
  get_build_targets_impl : Optimizer → M (gset string);
  get_package_outputs_commands_impl : Optimizer → M (list (list string))
}.

Definition _SOONG_UI_BASH_PATH : string := "build/soong/soong_ui.bash".
Definition _PREBUILT_SOONG_ZIP_PATH : string :=
  "prebuilts/build-tools/linux-x86/bin/soong_zip".

(** [l[i]] *)
Definition index {A} (l : list A) (i : nat) : res A :=
  match l !! i with
  | Some a => Ok a
  | None => Raise IndexError
  end.

(** One entry of the dict comprehension of [_query_soong_vars]:
    [line.split('=')[0]: line.split('=')[1].strip("'")]. *)
Definition dumpvars_entry (line : string) : res (string * string) :=
  k ← index (Str.split "=" line) 0;
  v ← index (Str.split "=" line) 1;
  Ok (k, Str.strip (Str.is_char "'") v).

Definition dumpvars_lines (out : string) : list string :=
  Str.split (ascii_of_nat 10) (Str.strip Str.isspace out).

Definition dumpvars_body (d : gmap string string) (line : string)
    : res (gmap string string) :=
  '(k, v) ← dumpvars_entry line; Ok (<[k := v]> d).

Definition dumpvars_dict (out : string) : res (gmap string string) :=
  for_res (dumpvars_lines out) ∅ dumpvars_body.

Definition dumpvars_failed : string := "Soong dumpvars failed! See log for stderr.".
Definition dumpvars_unparsed (out : string) : string :=
  "Error parsing soong dumpvars output! See output here: " +:+ out.

(** The [args] of the [subprocess.run] call of [_query_soong_vars]. *)
Definition dumpvars_args (src_top : pathlib.Path) (soong_vars : list string)
    : list string :=
  [ pathlib.str (src_top // _SOONG_UI_BASH_PATH);
    "--dumpvars-mode";
    "--abs-vars=" +:+ Str.join " " soong_vars ].

Definition _query_soong_vars (src_top : pathlib.Path) (soong_vars : list string)
    : M (gmap string string) :=
  let args := dumpvars_args src_top soong_vars in
  emit (SubprocessRun args);;
  process_result ← call (λ w, subprocess_run w args);
  if negb (returncode process_result =? 0)%Z then
    emit (LoggingError "soong dumpvars command failed! stderr:");;
    emit (LoggingError (stderr process_result));;
    raise (RuntimeError dumpvars_failed)
  else if negb (Str.nonempty (stdout process_result)) then
    (* 'Necessary soong variables ' + soong_vars: a str plus a list *)
    raise (TypeError "can only concatenate str (not 'list') to str")
  else
    match dumpvars_dict (stdout process_result) with
    | Raise IndexError =>
        raise (RuntimeError (dumpvars_unparsed (stdout process_result)))
    | r => lift r
    end.

Definition _base_zip_command (src_top dist_dir : pathlib.Path) (name : string)
    : list string :=
  [ pathlib.str (src_top // _PREBUILT_SOONG_ZIP_PATH); "-d"; "-o";
    pathlib.str (dist_dir // name) ].

Section OptimizedBuildTarget.
Context `{Methods}.

(** The [try] block of [_report_info_metrics_silently]. *)
Definition report_info_metrics (self : Optimizer) (artifact_name : string)
    : M () :=
  emit MetricsInstance;;
  call MetricsAgent_instance;;
  targets ← get_build_targets_impl self;
  emit (ReportOptimizedTarget (target self));;
  call (λ w, report_optimized_target w (target self));;
  emit (AddTargetArtifact (target self) artifact_name 0 targets);;
  call (λ w, add_target_artifact w (target self) artifact_name 0%Z targets).

Definition _report_info_metrics_silently (self : Optimizer)
    (artifact_name : string) : M () :=
  try_except (report_info_metrics self artifact_name)
    (λ e, emit (LoggingErrorWith "error while silently reporting metrics: " e)).

Definition get_build_targets (self : Optimizer) : M (gset string) :=
  let features := enabled_build_features self in
  flag ← get_enabled_flag self;
  if bool_decide (flag ∈ features) then
    modules ← get_build_targets_impl self;
    modify (set_modules_to_build modules);;
    mret modules
  else
    (if bool_decide (target self = "general-tests")
     then _report_info_metrics_silently self "general-tests.zip"
     else mret ());;
    modify (set_modules_to_build {[ target self ]});;
    mret {[ target self ]}.

Definition get_package_outputs_commands (self : Optimizer)
    : M (list (list string)) :=
  let features := enabled_build_features self in
  flag ← get_enabled_flag self;
  if bool_decide (flag ∈ features) then get_package_outputs_commands_impl self
  else mret [].

End OptimizedBuildTarget.

(** The base class itself: every overridable method raises. *)
Definition OptimizedBuildTarget : Methods :=
  {| type_name := "OptimizedBuildTarget";
     get_enabled_flag := λ _,
       raise (NotImplementedError
                "get_enabled_flag not implemented in OptimizedBuildTarget");
     get_build_targets_impl := λ _,
       raise (NotImplementedError
                "get_build_targets_impl not implemented in OptimizedBuildTarget");
     get_package_outputs_commands_impl := λ _,
       raise (NotImplementedError
                "get_package_outputs_commands_impl not implemented in OptimizedBuildTarget") |}.

(** ** [NullOptimizer] *)

Module NullOptimizer.

Definition get_build_targets (target : string) : M (gset string) :=
  mret {[ target ]}.

Definition get_package_outputs_commands (target : string)
    : M (list (list string)) :=
  mret [].

End NullOptimizer.

(** [for x in l: acc = body(acc, x)] inside a method. *)
Fixpoint for_fold {A S} (l : list A) (acc : S) (body : S → A → M S) : M S :=
  match l with
  | [] => mret acc
  | x :: l' => acc' ← body acc x; for_fold l' acc' body
  end.

(** [ChangeInfo.__init__]: a document that does not parse is logged and
    the exception raised again. *)
Definition ChangeInfo_init (change_info_file_path : option string) : M ChangeInfo :=
  emit (LoadChangeInfo change_info_file_path);;
  try_except (call (λ w, json_load w change_info_file_path))
    (λ e, match e with
          | JSONDecodeError =>
              emit (LoggingError
                      ("Failed to load CHANGE_INFO: "
                       +:+ default "None" change_info_file_path));;
              raise e
          | _ => raise e
          end).

(** ** [GeneralTestsOptimizer] *)

Module GeneralTestsOptimizer.

(** Modules that are built alongside general-tests as dependencies. *)
Definition _REQUIRED_MODULES : gset string :=
  {[ "cts-tradefed"; "vts-tradefed"; "compatibility-host-util" ]}.

(** [pathlib.Path(os.environ.get('TOP', os.getcwd()))] *)
Definition src_top_of_environ : M pathlib.Path :=
  top ← environ_get "TOP";
  cwd ← ask getcwd;
  mret (pathlib.of_str (default cwd top)).

Definition _get_general_tests_outputs : M (list string) :=
  src_top ← src_top_of_environ;
  soong_vars ← _query_soong_vars src_top ["PRODUCT_OUT"];
  product_out ← Path_of (soong_vars !! "PRODUCT_OUT");
  general_tests_list ←
    open_readlines (pathlib.str (product_out // "general-tests_files"));
  host ← open_readlines (pathlib.str (product_out // "general-tests_host_files"));
  modify (set_general_tests_host_outputs host);;
  tgt ← open_readlines (pathlib.str (product_out // "general-tests_target_files"));
  modify (set_general_tests_target_outputs tgt);;
  mret general_tests_list.

(** The arguments one [extra_option] adds to the command. *)
Definition extra_option_args (env : gmap string string)
    (extra_option : ExtraOption) : list (option string) :=
  match key extra_option with
  | None | Some EmptyString => []
  | Some k =>
      let arg_key := "--" +:+ k in
      if bool_decide (arg_key = "--build-id")
      then [Some arg_key; env !! "BUILD_NUMBER"]
      else if truthy (values extra_option)
      then items (values extra_option) ≫= (λ value, [Some arg_key; Some value])
      else [Some arg_key]
  end.

(** An element is [None] when [BUILD_NUMBER] is not in the environment.
    Python walks the set [change_paths] in an order of its own, which can
    differ from one run to the next; here the walk is [elements], and the
    properties speak of the command up to that order. *)
Definition _build_tf_command (env : gmap string string) (test_info : TestInfo)
    (change_paths : gset string) : list (option string) :=
  [Some (command test_info)]
  ++ (extra_options test_info ≫= extra_option_args env)
  ++ (if is_test_mapping test_info
      then elements change_paths
             ≫= (λ change_path, [Some "--test-mapping-path"; Some change_path])
      else []).

Definition _get_test_discovery_modules (self : Optimizer) : M (gset string) :=
  file ← environ_get "CHANGE_INFO";
  change_info ← ChangeInfo_init file;
  change_paths ← lift (get_changed_paths change_info);
  for_fold (test_infos self) (∅ : gset string) (λ test_modules test_info,
    env ← ask environ;
    let tf_command := _build_tf_command env test_info change_paths in
    dist ← lift (not_none "unsupported operand type(s) for +: 'NoneType' and 'str'"
                   (env !! "DIST_DIR"));
    let zip_path := dist +:+ "/test_mappings.zip" in
    emit (Discover tf_command zip_path);;
    '(modules, dependencies) ←
      call (λ w, discover_test_mapping_test_modules w tf_command zip_path);
    mret (foldl (λ (s : gset string) regex, {[ regex ]} ∪ s) test_modules modules)).

(** [[output for output in self._general_tests_outputs if module in output]] *)
Definition module_outputs (outputs : list string) (module : string)
    : list string :=
  filter (λ output, Str.contains module output) outputs.

(** One turn of the loop over [test_modules]: the pair is
    [(modules_to_build, self._build_outputs)]. *)
Definition select_module (outputs : list string)
    (acc : gset string * list string) (module : string)
    : gset string * list string :=
  match module_outputs outputs module with
  | [] => acc
  | found => ({[ module ]} ∪ acc.1, acc.2 ++ found)
  end.

(** The loop of [get_build_targets_impl].  The set [test_modules] is
    walked in the order of [elements]. *)
Definition select_modules (outputs : list string) (test_modules : gset string)
    : gset string * list string :=
  foldl (select_module outputs) (_REQUIRED_MODULES, []) (elements test_modules).

Definition get_build_targets_impl (self : Optimizer) : M (gset string) :=
  outputs ← _get_general_tests_outputs;
  modify (set_general_tests_outputs outputs);;
  test_modules ← _get_test_discovery_modules self;
  let '(modules_to_build, build_outputs) := select_modules outputs test_modules in
  modify (set_build_outputs build_outputs);;
  mret modules_to_build.

(** [any('/' + module + '/' in file for module in self.modules_to_build)] *)
Definition in_selected_module (modules : gset string) (file : string) : bool :=
  existsb (λ module, Str.contains ("/" +:+ module +:+ "/") file)
          (elements modules).

(** [[str(src_top) + '/' + file for file in outputs if any(...)]] *)
Definition selected_outputs (src_top : pathlib.Path) (modules : gset string)
    (outputs : list string) : list string :=
  (λ file, pathlib.str src_top +:+ "/" +:+ file)
    <$> filter (λ file, in_selected_module modules file) outputs.

(** [[file for file in outputs if file.endswith('.config\n')]] *)
Definition config_files (outputs : list string) : list string :=
  filter (λ file, Str.endswith (".config" +:+ NL) file) outputs.

Definition host_list_path (host_out : pathlib.Path) : string :=
  pathlib.str (host_out // "host_general-tests_list").
Definition target_list_path (product_out : pathlib.Path) : string :=
  pathlib.str (product_out // "target_general-tests_list").
Definition list_path (host_out : pathlib.Path) : string :=
  pathlib.str (host_out // "general-tests_list").

(** Generate general-tests_configs.zip and general-tests_list.zip. *)
Definition _get_zip_test_configs_zips_commands
    (src_top dist_dir host_out product_out : pathlib.Path)
    (host_config_files target_config_files : list string)
    : M (list (list string)) :=
  open_w (host_list_path host_out);;
  open_w (target_list_path product_out);;
  open_w (list_path host_out);;
  cwd ← ask getcwd;
  for_each host_config_files (λ config_file,
    write (host_list_path host_out) (config_file +:+ NL);;
    relative ← lift (os_path.relpath cwd config_file (pathlib.str host_out));
    write (list_path host_out) ("host/" +:+ relative +:+ NL));;
  for_each target_config_files (λ config_file,
    write (target_list_path product_out) (config_file +:+ NL);;
    relative ← lift (os_path.relpath cwd config_file (pathlib.str product_out));
    write (list_path host_out) ("target/" +:+ relative +:+ NL));;
  let zip_commands := [] in
  let tests_config_zip_command :=
    _base_zip_command src_top dist_dir "general-tests_configs.zip" in
  segment ← lift (_generate_zip_options_for_items
                    "host" (pathlib.str host_out)
                    (Some [host_list_path host_out]) None None);
  let tests_config_zip_command := tests_config_zip_command ++ segment in
  segment ← lift (_generate_zip_options_for_items
                    "target" (pathlib.str product_out)
                    (Some [target_list_path product_out]) None None);
  let tests_config_zip_command := tests_config_zip_command ++ segment in
  let zip_commands := zip_commands ++ [tests_config_zip_command] in
  let tests_list_zip_command :=
    _base_zip_command src_top dist_dir "general-tests_list.zip" in
  segment ← lift (_generate_zip_options_for_items
                    "" (pathlib.str host_out)
                    None (Some [list_path host_out]) None);
  let tests_list_zip_command := tests_list_zip_command ++ segment in
  let zip_commands := zip_commands ++ [tests_list_zip_command] in
  mret zip_commands.

Definition get_package_outputs_commands_impl (self : Optimizer)
    : M (list (list string)) :=
  src_top ← src_top_of_environ;
  dist_dir ← (environ_get "DIST_DIR" ≫= Path_of);
  tmp_dir ← (environ_get "TMPDIR" ≫= Path_of);
  modules ← attribute "modules_to_build" modules_to_build;
  emit (Print modules);;
  host_files ← attribute "_general_tests_host_outputs" _general_tests_host_outputs;
  let host_outputs := selected_outputs src_top modules host_files in
  target_files ←
    attribute "_general_tests_target_outputs" _general_tests_target_outputs;
  let target_outputs := selected_outputs src_top modules target_files in
  let host_config_files := config_files host_outputs in
  let target_config_files := config_files target_outputs in
  emit (LoggingInfo host_outputs);;
  emit (LoggingInfo target_outputs);;
  open_w (pathlib.str (tmp_dir // "host.list"));;
  for_each host_outputs (write (pathlib.str (tmp_dir // "host.list")));;
  open_w (pathlib.str (tmp_dir // "target.list"));;
  for_each target_outputs (write (pathlib.str (tmp_dir // "target.list")));;
  soong_vars ←
    _query_soong_vars src_top ["PRODUCT_OUT"; "SOONG_HOST_OUT"; "HOST_OUT"];
  product_out ← Path_of (soong_vars !! "PRODUCT_OUT");
  soong_host_out ← Path_of (soong_vars !! "SOONG_HOST_OUT");
  host_out ← Path_of (soong_vars !! "HOST_OUT");
  let zip_commands := [] in
  config_commands ←
    _get_zip_test_configs_zips_commands src_top dist_dir host_out product_out
      host_config_files target_config_files;
  let zip_commands := zip_commands ++ config_commands in
  let zip_command := _base_zip_command src_top dist_dir "general-tests.zip" in
  (* Add host testcases. *)
  zip_command ←
    match host_outputs with
    | [] => mret zip_command
    | _ =>
        segment ← lift (_generate_zip_options_for_items
                          "host" (pathlib.str host_out)
                          (Some [pathlib.str (tmp_dir // "host.list")]) None None);
        mret (zip_command ++ segment)
    end;
  (* Add target testcases. *)
  zip_command ←
    match target_outputs with
    | [] => mret zip_command
    | _ =>
        segment ← lift (_generate_zip_options_for_items
                          "target" (pathlib.str product_out)
                          (Some [pathlib.str (tmp_dir // "target.list")]) None None);
        mret (zip_command ++ segment)
    end;
  (* Add necessary tools. These are also hardcoded in general-tests.mk. *)
  let framework_path := soong_host_out // "framework" in
  segment ← lift (_generate_zip_options_for_items
                    "host/tools" (pathlib.str framework_path) None
                    (Some [ pathlib.str (framework_path // "cts-tradefed.jar");
                            pathlib.str (framework_path // "compatibility-host-util.jar");
                            pathlib.str (framework_path // "vts-tradefed.jar") ])
                    None);
  let zip_command := zip_command ++ segment in
  let zip_command := zip_command ++ ["-sha256"] in
  let zip_commands := zip_commands ++ [zip_command] in
  mret zip_commands.

Definition get_enabled_flag (self : Optimizer) : M string :=
  mret "general_tests_optimized".

Definition methods : Methods :=
  Build_Methods "GeneralTestsOptimizer" get_enabled_flag
    get_build_targets_impl get_package_outputs_commands_impl.

(** The inherited methods, dispatched to this class. *)
Definition get_build_targets : Optimizer → M (gset string) :=
  @get_build_targets methods.
Definition get_package_outputs_commands : Optimizer → M (list (list string)) :=
  @get_package_outputs_commands methods.

End GeneralTestsOptimizer.

(** ** What the properties speak about *)

(** [l] is [None] or [[]]: nothing was supplied for this argument. *)
Definition no_items {A} (l : option (list A)) : Prop := l = None ∨ l = Some [].

(** The file infos of a change description, each with the project path of
    its change: [(projectPath, path)]. *)
Definition file_entries (ci : ChangeInfo) : list (string * string) :=
  c ← default [] (changes ci);
  r ← default [] (revisions c);
  f ← default [] (fileInfos r);
  match projectPath c, path f with
  | Some pp, Some p => [(pp, p)]
  | _, _ => []
  end.

(** The number of file infos, over all revisions of all changes. *)
Definition file_info_count (ci : ChangeInfo) : nat :=
  sum_list ((λ c, sum_list ((λ r, length (default [] (fileInfos r)))
                              <$> default [] (revisions c)))
              <$> default [] (changes ci)).

(** [projectPath + "/" + path] for every file info. *)
Definition full_paths (ci : ChangeInfo) : list string :=
  (λ e, (e.1 +:+ "/") +:+ e.2) <$> file_entries ci.

(** There is a file info with sub-path [p] under a revision of a change
    whose project path is [pp]. *)
Definition has_file (ci : ChangeInfo) (pp p : string) : Prop :=
  ∃ cs c rs r fis f,
    changes ci = Some cs ∧ c ∈ cs ∧ projectPath c = Some pp ∧
    revisions c = Some rs ∧ r ∈ rs ∧
    fileInfos r = Some fis ∧ f ∈ fis ∧ path f = Some p.

(** Whatever a method does, the events already in the trace stay. *)
Definition extends {A} (m : M A) : Prop :=
  ∀ w st r st', m w st = (r, st') → trace st `prefix_of` trace st'.

(** [command[3]]: the archive a zip command writes, after [-d -o]. *)
Definition output_archive (zip_command : list string) : option string :=
  zip_command !! 3.

(** ** Scenarios *)

(** A change with two revisions and three files, one of them at the top
    of the project. *)
Definition scenario_change_info : ChangeInfo :=
  {| changes := Some [
       {| projectPath := Some "build/ci";
          revisions := Some [
            {| fileInfos := Some [ {| path := Some "src/a.py" |};
                                   {| path := Some "b.py" |} ] |};
            {| fileInfos := Some [ {| path := Some "src/c.py" |} ] |} ] |} ] |}.

(** Two revisions of one change that both touch the same file. *)
Definition same_file_twice : ChangeInfo :=
  {| changes := Some [
       {| projectPath := Some "build/ci";
          revisions := Some [
            {| fileInfos := Some [ {| path := Some "optimized_targets.py" |} ] |};
            {| fileInfos := Some [ {| path := Some "optimized_targets.py" |} ] |} ] |} ] |}.

Definition scenario_environ : gmap string string :=
  {[ "TOP" := "/top"; "DIST_DIR" := "/top/out/dist"; "TMPDIR" := "/tmp/";
     "CHANGE_INFO" := "/top/change_info" ]}.

Definition scenario_dumpvars : string :=
  "PRODUCT_OUT='/top/product_out'" +:+ NL +:+
  "SOONG_HOST_OUT='/top/soong_host_out'" +:+ NL +:+
  "HOST_OUT='/top/host_out'" +:+ NL.

(** A build where every collaborator answers; discovery finds [found]. *)
Definition scenario_world (found : list string) : World :=
  {| environ := scenario_environ;
     getcwd := "/top";
     subprocess_run := λ _,
       Ok {| returncode := 0; stdout := scenario_dumpvars; stderr := "" |};
     json_load := λ _, Ok scenario_change_info;
     writable := λ _, true;
     discover_test_mapping_test_modules := λ _ _, Ok (found, ["dependency_1"]);
     MetricsAgent_instance := Ok ();
     report_optimized_target := λ _, Ok ();
     add_target_artifact := λ _ _ _ _, Ok () |}.

(** The same build with a metrics agent that cannot be reached. *)
Definition scenario_world_no_metrics : World :=
  {| environ := scenario_environ;
     getcwd := "/top";
     subprocess_run := λ _,
       Ok {| returncode := 0; stdout := scenario_dumpvars; stderr := "" |};
     json_load := λ _, Ok scenario_change_info;
     writable := λ _, true;
     discover_test_mapping_test_modules := λ _ _, Ok (["m1"], ["dependency_1"]);
     MetricsAgent_instance := Raise (CollaboratorError "metrics agent unavailable");
     report_optimized_target := λ _, Ok ();
     add_target_artifact := λ _ _ _ _, Ok () |}.

(** The output catalog [a/m1/x], [a/m1/x.config], [a/m2/y], all host files. *)
Definition scenario_catalog : string :=
  "a/m1/x" +:+ NL +:+ "a/m1/x.config" +:+ NL +:+ "a/m2/y" +:+ NL.

Definition scenario_files : gmap string string :=
  {[ "/top/product_out/general-tests_files" := scenario_catalog;
     "/top/product_out/general-tests_host_files" := scenario_catalog;
     "/top/product_out/general-tests_target_files" := "" ]}.

Definition scenario_test_infos : list TestInfo :=
  [ {| command := "/tf/command";
       extra_options :=
         [ {| key := Some "additional-files-filter";
              values := Some ["general-tests.zip"] |};
           {| key := Some "test-mapping-test-group";
              values := Some ["test-mapping-group"] |} ];
       is_test_mapping := true |} ].

(** A configuration query that exits with [code] and prints [out]. *)
Definition dumpvars_world (code : Z) (out : string) : World :=
  {| environ := scenario_environ;
     getcwd := "/top";
     subprocess_run := λ _, Ok {| returncode := code; stdout := out; stderr := "" |};
     json_load := λ _, Ok scenario_change_info;
     writable := λ _, true;
     discover_test_mapping_test_modules := λ _ _, Ok (["m1"], ["dependency_1"]);
     MetricsAgent_instance := Ok ();
     report_optimized_target := λ _, Ok ();
     add_target_artifact := λ _ _ _ _, Ok () |}.

(** general-tests with the optimization enabled. *)
Definition optimized : Optimizer :=
  {| target := "general-tests";
     enabled_build_features := {[ "optimized_build"; "general_tests_optimized" ]};
     test_infos := scenario_test_infos |}.

(** general-tests with the optimization not enabled. *)
Definition not_optimized : Optimizer :=
  {| target := "general-tests";
     enabled_build_features := {[ "optimized_build" ]};
     test_infos := scenario_test_infos |}.

(** The state [get_build_targets] leaves behind in the scenario. *)
Definition scenario_selected : State :=
  (GeneralTestsOptimizer.get_build_targets optimized (scenario_world ["m1"])
     (initial_state scenario_files)).2.

(** The config commands of a build in which no module owns a config file. *)
Definition no_config_commands : M (list (list string)) :=
  GeneralTestsOptimizer._get_zip_test_configs_zips_commands
    (pathlib.of_str "/top") (pathlib.of_str "/top/out/dist")
    (pathlib.of_str "/top/host_out") (pathlib.of_str "/top/product_out") [] [].

Definition scenario_configs_command : list string :=
  [ "/top/prebuilts/build-tools/linux-x86/bin/soong_zip"; "-d"; "-o";
    "/top/out/dist/general-tests_configs.zip";
    "-P"; "host"; "-C"; "/top/host_out";
    "-l"; "/top/host_out/host_general-tests_list";
    "-P"; "target"; "-C"; "/top/product_out";
    "-l"; "/top/product_out/target_general-tests_list" ].

Definition scenario_list_command : list string :=
  [ "/top/prebuilts/build-tools/linux-x86/bin/soong_zip"; "-d"; "-o";
    "/top/out/dist/general-tests_list.zip";
    "-C"; "/top/host_out"; "-f"; "/top/host_out/general-tests_list" ].

(** The primary command of the scenario: [m1] has host files only. *)
Definition scenario_primary_command : list string :=
  [ "/top/prebuilts/build-tools/linux-x86/bin/soong_zip"; "-d"; "-o";
    "/top/out/dist/general-tests.zip";
    "-P"; "host"; "-C"; "/top/host_out"; "-l"; "/tmp/host.list";
    "-P"; "host/tools"; "-C"; "/top/soong_host_out/framework";
    "-f"; "/top/soong_host_out/framework/cts-tradefed.jar";
    "-f"; "/top/soong_host_out/framework/compatibility-host-util.jar";
    "-f"; "/top/soong_host_out/framework/vts-tradefed.jar";
    "-sha256" ].

(** A catalog whose only module directory is [module_1]. *)
Definition module_1_catalog : list string :=
  [ "out/host/testcases/module_1/module_1.config" +:+ NL ].

Definition module_1_files : gmap string string :=
  {[ "/top/product_out/general-tests_files" :=
       "out/host/testcases/module_1/module_1.config" +:+ NL;
     "/top/product_out/general-tests_host_files" :=
       "out/host/testcases/module_1/module_1.config" +:+ NL;
     "/top/product_out/general-tests_target_files" := "" ]}.

(** ** What the further properties speak about *)

Definition is_Ok {A} (r : res A) : Prop := ∃ a, r = Ok a.

Definition has_path (f : FileInfo) : bool :=
  match path f with Some _ => true | None => false end.
Definition has_file_infos (r : Revision) : bool :=
  match fileInfos r with
  | Some fis => forallb has_path fis
  | None => false
  end.
Definition has_revisions (c : Change) : bool :=
  match projectPath c, revisions c with
  | Some _, Some rs => forallb has_file_infos rs
  | _, _ => false
  end.

(** Every key the two readers look up is there. *)
Definition complete (ci : ChangeInfo) : bool :=
  match changes ci with
  | Some cs => forallb has_revisions cs
  | None => false
  end.

(** A method respects a relation between states when every run of it,
    whatever its outcome, takes a state to a related one. *)
Definition respects (R : relation State) {A} (m : M A) : Prop :=
  ∀ w st r st', m w st = (r, st') → R st st'.

(** The files are as they were. *)
Definition same_files : relation State := λ st st', files st' = files st.

(** [self.modules_to_build] is as it was. *)
Definition same_selection : relation State :=
  λ st st', modules_to_build st' = modules_to_build st.

(** In the world [w], every exception [m] raises satisfies [P]. *)
Definition raises_only (w : World) (P : exn → Prop) {A} (m : M A) : Prop :=
  ∀ st e st', m w st = (Raise e, st') → P e.

(** A [RuntimeError] with this message comes from the configuration query. *)
Definition query_error (e : exn) : Prop :=
  ∀ msg, e = RuntimeError msg →
         msg = dumpvars_failed ∨ ∃ out, msg = dumpvars_unparsed out.

(** The last character of a string. *)
Fixpoint last_char (s : string) : option ascii :=
  match s with
  | EmptyString => None
  | String a EmptyString => Some a
  | String _ s' => last_char s'
  end.

(** A build whose change description is not JSON. *)
Definition unparsable_world : World :=
  {| environ := scenario_environ;
     getcwd := "/top";
     subprocess_run := λ _,
       Ok {| returncode := 0; stdout := scenario_dumpvars; stderr := "" |};
     json_load := λ _, Raise JSONDecodeError;
     writable := λ _, true;
     discover_test_mapping_test_modules := λ _ _, Ok (["m1"], ["dependency_1"]);
     MetricsAgent_instance := Ok ();
     report_optimized_target := λ _, Ok ();
     add_target_artifact := λ _ _ _ _, Ok () |}.

(** The command of a test info for a walk [paths] of the set of changed
    paths: [_build_tf_command] with the order of the walk made explicit. *)
Definition tf_command_in_order (env : gmap string string) (test_info : TestInfo)
    (paths : list string) : list (option string) :=
  [Some (command test_info)]
  ++ (extra_options test_info ≫= GeneralTestsOptimizer.extra_option_args env)
  ++ (if is_test_mapping test_info
      then paths ≫= (λ change_path, [Some "--test-mapping-path"; Some change_path])
      else []).

(** The carriage return. *)
Definition CR : string := String (ascii_of_nat 13) "".

(** general-tests with the optimization enabled and no test scheduled. *)
Definition optimized_without_tests : Optimizer :=
  {| target := "general-tests";
     enabled_build_features := {[ "optimized_build"; "general_tests_optimized" ]};
     test_infos := [] |}.

(** * Properties *)

Local Open Scope nat_scope.

(** ** The model on small inputs *)

Example zip_options_host :
  _generate_zip_options_for_items "host" "/out/host" (Some ["/tmp/host.list"]) None None
  = Ok ["-P"; "host"; "-C"; "/out/host"; "-l"; "/tmp/host.list"].
Proof. reflexivity. Qed.

Example normpath_dots : os_path.normpath "/a/./b/../c//d" = "/a/c/d".
Proof. reflexivity. Qed.

Example relpath_sibling : os_path.relpath "/cwd" "/out/a" "/out/b/c" = Ok "../../a".
Proof. reflexivity. Qed.

Example path_div : pathlib.str (pathlib.of_str "/tmp/" // "host.list") = "/tmp/host.list".
Proof. reflexivity. Qed.

Example dirname_nested : os_path.dirname "src/main/MyClass.java" = "src/main".
Proof. reflexivity. Qed.

Example dirname_root : os_path.dirname "/Android.bp" = "/".
Proof. reflexivity. Qed.

Example scenario_change_info_dirs :
  get_changed_paths scenario_change_info = Ok {[ "build/ci/src"; "build/ci/" ]}.
Proof. vm_compute. reflexivity. Qed.

Example readlines_two : readlines ("a/b" +:+ NL +:+ "c") = ["a/b" +:+ NL; "c"].
Proof. reflexivity. Qed.

Example relpath_empty_path :
  os_path.relpath "/cwd" "" "/out/host" = Raise (ValueError "no path specified").
Proof. reflexivity. Qed.

Example empty_config_path_raises :
  (GeneralTestsOptimizer._get_zip_test_configs_zips_commands
     (pathlib.of_str "/top") (pathlib.of_str "/top/out/dist")
     (pathlib.of_str "/top/host_out") (pathlib.of_str "/top/product_out")
     [""] [] (scenario_world []) (initial_state ∅)).1
  = Raise (ValueError "no path specified").
Proof. vm_compute. reflexivity. Qed.

Example universal_newlines_lines :
  readlines (universal_newlines ("a" +:+ CR +:+ NL +:+ "b" +:+ CR +:+ "c"))
  = ["a" +:+ NL; "b" +:+ NL; "c"].
Proof. reflexivity. Qed.

Example relpath_below :
  os_path.relpath "/cwd" "/out/host/testcases/m/m.config" "/out/host"
  = Ok "testcases/m/m.config".
Proof. reflexivity. Qed.

Example dirname_flat : os_path.dirname "Android.bp" = "".
Proof. reflexivity. Qed.

Example dirname_doubled : os_path.dirname "a//b" = "a".
Proof. reflexivity. Qed.

(** A run whose first component is known. *)
Lemma run_eq {A} (x : res A * State) (r : res A) : x.1 = r → x = (r, x.2).
Proof. destruct x. by intros <-. Qed.

(** ** Strings *)

Lemma startswith_app_l p a b :
  Str.startswith p a = true → Str.startswith p (a +:+ b) = true.
Proof.
  revert a. induction p as [|c p IH]; intros [|d a]; simpl; try done.
  case_decide; [auto | done].
Qed.

Lemma contains_app_l n a b :
  Str.contains n a = true → Str.contains n (a +:+ b) = true.
Proof.
  induction a as [|c a IH]; simpl.
  - destruct n; [|done]. intros _. destruct b; reflexivity.
  - rewrite !orb_true_iff. intros [Hs|Hc]; [left|right; auto].
    apply (startswith_app_l n (String c a) b Hs).
Qed.

Lemma split_without_sep c s :
  Str.contains (String c "") s = false → Str.split c s = [s].
Proof.
  induction s as [|a s IH]; simpl; [done|].
  rewrite orb_false_iff. intros [Ha Hs].
  simpl in Ha. destruct (decide (a = c)) as [->|Hne].
  - rewrite decide_True in Ha by done. by destruct s.
  - by rewrite IH.
Qed.

Lemma rfind_without c s :
  Str.contains (String c "") s = false → Str.rfind c s = (-1)%Z.
Proof.
  induction s as [|a s IH]; simpl; [done|].
  rewrite orb_false_iff. intros [Ha Hs]. rewrite (IH Hs). simpl.
  simpl in Ha. destruct (decide (a = c)) as [->|Hne]; [|done].
  rewrite decide_True in Ha by done. by destruct s.
Qed.

Lemma dirname_without_slash p :
  Str.contains "/" p = false → os_path.dirname p = "".
Proof.
  intros H. unfold os_path.dirname. rewrite (rfind_without _ _ H). simpl.
  unfold Str.slice_to. simpl. by destruct p.
Qed.

(** ** The zip-segment builder *)

Lemma truthy_no_items {A} (l : option (list A)) : truthy l = false ↔ no_items l.
Proof.
  unfold no_items. destruct l as [[|x l]|]; simpl; split; intros; try done;
    try tauto; destruct_or!; done.
Qed.

Lemma zip_options_cases prefix relative_root
    (list_files files directories : option (list string)) :
  let r := _generate_zip_options_for_items
             prefix relative_root list_files files directories in
  (truthy list_files || truthy files || truthy directories = false
   ∧ ∃ msg, r = Raise (RuntimeError msg))
  ∨ (truthy list_files || truthy files || truthy directories = true
     ∧ ∃ segment, r = Ok segment ∧ segment ≠ []).
Proof.
  unfold _generate_zip_options_for_items.
  destruct list_files as [[|l ls]|], files as [[|f fs]|],
    directories as [[|d ds]|]; simpl;
    try (left; split; [done|eexists; done]);
    right; (split; [done|]); eexists; (split; [done|]);
    destruct (Str.nonempty prefix), (Str.nonempty relative_root); done.
Qed.

(** C4: the zip-segment builder raises its [RuntimeError] exactly when no
    list file, no file and no directory is supplied (each argument empty or
    absent); with at least one of them it raises nothing and returns a
    segment, which is not empty. *)
Theorem zip_options_error_iff_no_items prefix relative_root
    (list_files files directories : option (list string)) :
  (is_RuntimeError (_generate_zip_options_for_items
                      prefix relative_root list_files files directories)
   ↔ no_items list_files ∧ no_items files ∧ no_items directories)
  ∧ ((∃ segment, _generate_zip_options_for_items
                   prefix relative_root list_files files directories = Ok segment
                 ∧ segment ≠ [])
     ↔ ¬ (no_items list_files ∧ no_items files ∧ no_items directories)).
Proof.
  rewrite <- !truthy_no_items.
  destruct (zip_options_cases prefix relative_root list_files files directories)
    as [[Hnone [msg ->]]|[Hsome (segment & -> & Hne)]]; simpl.
  - apply orb_false_iff in Hnone as [Hnone ?].
    apply orb_false_iff in Hnone as [? ?].
    split; [tauto|]. split; [intros (? & ? & _); done | tauto].
  - assert (¬ (truthy list_files = false ∧ truthy files = false
               ∧ truthy directories = false)) as Hn.
    { intros (Ha & Hb & Hc). by rewrite Ha, Hb, Hc in Hsome. }
    split; [tauto|]. split; [done|]. intros _. by exists segment.
Qed.

(** ** Changed files and changed directories *)

(** A loop whose body adds the strings [h x] to the accumulated set, for
    every [x] it accepts, has added all of them at the end. *)
Lemma for_res_collect {A} (body : gset string → A → res (gset string))
    (h : A → list string) (cnt : A → nat) :
  (∀ acc x acc', body acc x = Ok acc' →
     acc' = list_to_set (h x) ∪ acc ∧ length (h x) = cnt x) →
  ∀ l acc s, for_res l acc body = Ok s →
     s = list_to_set (l ≫= h) ∪ acc ∧ length (l ≫= h) = sum_list (cnt <$> l).
Proof.
  intros Hbody. induction l as [|x l IH]; intros acc s; cbn [for_res].
  - intros [= <-]. split; [|done]. symmetry. apply (left_id_L ∅ (∪)).
  - destruct (body acc x) as [acc'|e] eqn:Hb; [|done].
    intros Hrest. destruct (Hbody _ _ _ Hb) as [-> Hlen].
    destruct (IH _ _ Hrest) as [-> Hsum].
    rewrite bind_cons, list_to_set_app_L, length_app, Hlen, Hsum.
    split; [|done]. rewrite (assoc_L (∪)). f_equal. apply (comm_L (∪)).
Qed.

Section collected.
(** [item pp p] is what the innermost loop adds for the sub-path [p] of a
    change with project path [pp]. *)
Variable item : string → string → string.
Variable file_info_body : string → gset string → FileInfo → res (gset string).
Variable revision_body : string → gset string → Revision → res (gset string).
Variable change_body : gset string → Change → res (gset string).

Hypothesis file_info_body_eq : ∀ project_path acc file_info,
  file_info_body project_path acc file_info
  = (file_path ← not_none "path" (path file_info);
     Ok ({[ item project_path file_path ]} ∪ acc)).
Hypothesis revision_body_eq : ∀ project_path acc revision,
  revision_body project_path acc revision
  = (file_infos ← not_none "fileInfos" (fileInfos revision);
     for_res file_infos acc (file_info_body project_path)).
Hypothesis change_body_eq : ∀ acc change,
  change_body acc change
  = (pp ← not_none "projectPath" (projectPath change);
     revs ← not_none "revisions" (revisions change);
     for_res revs acc (revision_body (pp +:+ "/"))).

Definition items_of_file_info (project_path : string) (f : FileInfo)
    : list string :=
  match path f with Some p => [item project_path p] | None => [] end.
Definition items_of_revision (project_path : string) (r : Revision)
    : list string :=
  default [] (fileInfos r) ≫= items_of_file_info project_path.
Definition items_of_change (c : Change) : list string :=
  match projectPath c with
  | Some pp => default [] (revisions c) ≫= items_of_revision (pp +:+ "/")
  | None => []
  end.

Lemma file_info_collected project_path acc f acc' :
  file_info_body project_path acc f = Ok acc' →
  acc' = list_to_set (items_of_file_info project_path f) ∪ acc
  ∧ length (items_of_file_info project_path f) = 1.
Proof.
  rewrite file_info_body_eq. unfold items_of_file_info.
  destruct (path f); simpl; [|done]. intros [= <-]. split; [|done].
  by rewrite (right_id_L ∅ (∪)).
Qed.

Lemma revision_collected project_path acc r acc' :
  revision_body project_path acc r = Ok acc' →
  acc' = list_to_set (items_of_revision project_path r) ∪ acc
  ∧ length (items_of_revision project_path r)
    = length (default [] (fileInfos r)).
Proof.
  rewrite revision_body_eq. unfold items_of_revision.
  destruct (fileInfos r) as [fis|]; simpl; [|done]. intros Hloop.
  destruct (for_res_collect _ _ (λ _, 1) (file_info_collected project_path)
              _ _ _ Hloop) as [-> Hlen].
  split; [done|]. rewrite Hlen. clear. induction fis; simpl; auto.
Qed.

Lemma change_collected acc c acc' :
  change_body acc c = Ok acc' →
  acc' = list_to_set (items_of_change c) ∪ acc
  ∧ length (items_of_change c)
    = sum_list ((λ r, length (default [] (fileInfos r)))
                  <$> default [] (revisions c)).
Proof.
  rewrite change_body_eq. unfold items_of_change.
  destruct (projectPath c) as [pp|]; simpl; [|done].
  destruct (revisions c) as [rs|]; simpl; [|done]. intros Hloop.
  by destruct (for_res_collect _ _ _ (revision_collected (pp +:+ "/"))
                 _ _ _ Hloop) as [-> Hlen].
Qed.

Lemma changes_collected (ci : ChangeInfo) s :
  (cs ← subscript_changes ci; for_res cs ∅ change_body) = Ok s →
  s = list_to_set (default [] (changes ci) ≫= items_of_change)
  ∧ length (default [] (changes ci) ≫= items_of_change) = file_info_count ci.
Proof.
  unfold subscript_changes, file_info_count.
  destruct (changes ci) as [cs|]; simpl; [|done]. intros Hloop.
  destruct (for_res_collect _ _ _ change_collected _ _ _ Hloop) as [-> Hlen].
  split; [|done]. apply (right_id_L ∅ (∪)).
Qed.

(** On a description that is read without an exception, the collected
    items are those of [file_entries]. *)
Lemma items_of_entries (ci : ChangeInfo) :
  default [] (changes ci) ≫= items_of_change
  = (λ e, item (e.1 +:+ "/") e.2) <$> file_entries ci.
Proof.
  unfold file_entries. generalize (default [] (changes ci)).
  induction l as [|c cs IH]; [done|].
  rewrite !bind_cons, fmap_app, IH. f_equal. clear.
  unfold items_of_change. destruct (projectPath c) as [pp|].
  - generalize (default [] (revisions c)). induction l as [|r rs IH]; [done|].
    rewrite !bind_cons, fmap_app, IH. f_equal. clear.
    unfold items_of_revision. generalize (default [] (fileInfos r)).
    induction l as [|f fs IH]; [done|].
    rewrite !bind_cons, fmap_app, IH. f_equal.
    unfold items_of_file_info. by destruct (path f).
  - generalize (default [] (revisions c)). induction l as [|r rs IH]; [done|].
    rewrite bind_cons, fmap_app, <- IH.
    generalize (default [] (fileInfos r)). by induction l.
Qed.
End collected.

Lemma append_empty_r (s : string) : s +:+ "" = s.
Proof.
  induction s as [|a s IH]; [done|].
  change (String a s +:+ "") with (String a (s +:+ "")). by rewrite IH.
Qed.

Lemma size_list_to_set_le (l : list string) :
  size (list_to_set l : gset string) ≤ length l.
Proof.
  induction l as [|x l IH]; [done|]. rewrite list_to_set_cons. simpl.
  rewrite size_union_alt, size_singleton.
  pose proof (subseteq_size (list_to_set l ∖ {[x]}) (list_to_set l : gset string)
                ltac:(apply subseteq_difference_l; reflexivity)).
  lia.
Qed.

Lemma size_list_to_set_full (l : list string) :
  size (list_to_set l : gset string) = length l ↔ NoDup l.
Proof.
  split; [|apply size_list_to_set].
  induction l as [|x l IH]; [constructor|]. rewrite list_to_set_cons. simpl.
  intros Hsize. destruct (decide (x ∈ l)) as [Hin|Hout].
  - pose proof (size_list_to_set_le l).
    assert ({[x]} ∪ list_to_set l = (list_to_set l : gset string)) as Heq.
    { apply subseteq_union_1_L, singleton_subseteq_l.
      by apply elem_of_list_to_set. }
    rewrite Heq in Hsize. lia.
  - constructor; [done|]. apply IH.
    rewrite size_union, size_singleton in Hsize; [lia|].
    apply disjoint_singleton_l. by rewrite elem_of_list_to_set.
Qed.

Lemma find_changed_files_collected ci files :
  find_changed_files ci = Ok files →
  files = list_to_set (full_paths ci)
  ∧ length (full_paths ci) = file_info_count ci.
Proof.
  intros Hrun.
  destruct (changes_collected (λ pp p, pp +:+ p)
              find_changed_files_loops.file_info_body
              find_changed_files_loops.revision_body
              find_changed_files_loops.change_body
              ltac:(done) ltac:(done) ltac:(done) ci files Hrun) as [-> Hlen].
  rewrite items_of_entries in Hlen |- *. done.
Qed.

Lemma get_changed_paths_collected ci dirs :
  get_changed_paths ci = Ok dirs →
  dirs = list_to_set ((λ e, (e.1 +:+ "/") +:+ os_path.dirname e.2)
                        <$> file_entries ci)
  ∧ length (file_entries ci) = file_info_count ci.
Proof.
  intros Hrun.
  destruct (changes_collected (λ pp p, pp +:+ os_path.dirname p)
              get_changed_paths_loops.file_info_body
              get_changed_paths_loops.revision_body
              get_changed_paths_loops.change_body
              ltac:(done) ltac:(done) ltac:(done) ci dirs Hrun) as [-> Hlen].
  rewrite items_of_entries in Hlen |- *. by rewrite length_fmap in Hlen.
Qed.

Lemma file_entries_has_file ci pp p : (pp, p) ∈ file_entries ci ↔ has_file ci pp p.
Proof.
  unfold file_entries, has_file. rewrite list_elem_of_bind. split.
  - intros (c & Hc & Hcs). apply list_elem_of_bind in Hc as (r & Hr & Hrs).
    apply list_elem_of_bind in Hr as (f & Hf & Hfs).
    destruct (changes ci) as [cs|]; [|by apply elem_of_nil in Hcs].
    destruct (revisions c) as [rs|] eqn:Hrev; [|by apply elem_of_nil in Hrs].
    destruct (fileInfos r) as [fis|] eqn:Hfis; [|by apply elem_of_nil in Hfs].
    destruct (projectPath c) as [pp'|] eqn:Hpp; [|by apply elem_of_nil in Hf].
    destruct (path f) as [p'|] eqn:Hp; [|by apply elem_of_nil in Hf].
    apply list_elem_of_singleton in Hf as [= -> ->].
    by exists cs, c, rs, r, fis, f.
  - intros (cs & c & rs & r & fis & f & -> & Hc & Hpp & Hrs & Hr & Hfis & Hf & Hp).
    exists c. split; [|done]. apply list_elem_of_bind. exists r. rewrite Hrs.
    split; [|done]. apply list_elem_of_bind. exists f. rewrite Hfis.
    split; [|done]. rewrite Hpp, Hp. by apply list_elem_of_singleton.
Qed.

(** C5 (amended): the set of changed files has at most ΣM entries, one per
    file info, and exactly ΣM when the full paths [projectPath/path] of the
    file infos are pairwise different: equal full paths collapse, as equal
    directories do.  The set of changed directories has at most ΣM entries. *)
Theorem changed_sets_at_most_file_infos ci files dirs :
  find_changed_files ci = Ok files →
  get_changed_paths ci = Ok dirs →
  size files ≤ file_info_count ci
  ∧ (size files = file_info_count ci ↔ NoDup (full_paths ci))
  ∧ size dirs ≤ file_info_count ci.
Proof.
  intros [-> Hfiles]%find_changed_files_collected
         [-> Hdirs]%get_changed_paths_collected.
  rewrite <- Hfiles at 1 2. split; [apply size_list_to_set_le|].
  split; [apply size_list_to_set_full|].
  rewrite <- Hdirs, <- (length_fmap (λ e, (e.1 +:+ "/") +:+ os_path.dirname e.2)).
  apply size_list_to_set_le.
Qed.

Lemma changed_sets_at_most_file_infos_witness :
  find_changed_files scenario_change_info
  = Ok {[ "build/ci/src/a.py"; "build/ci/b.py"; "build/ci/src/c.py" ]}
  ∧ get_changed_paths scenario_change_info
    = Ok {[ "build/ci/src"; "build/ci/" ]}
  ∧ size ({[ "build/ci/src/a.py"; "build/ci/b.py"; "build/ci/src/c.py" ]}
            : gset string) ≤ file_info_count scenario_change_info
  ∧ (size ({[ "build/ci/src/a.py"; "build/ci/b.py"; "build/ci/src/c.py" ]}
             : gset string) = file_info_count scenario_change_info
     ↔ NoDup (full_paths scenario_change_info))
  ∧ size ({[ "build/ci/src"; "build/ci/" ]} : gset string)
    ≤ file_info_count scenario_change_info.
Proof.
  assert (find_changed_files scenario_change_info
          = Ok {[ "build/ci/src/a.py"; "build/ci/b.py"; "build/ci/src/c.py" ]})
    as Hfiles by (vm_compute; reflexivity).
  assert (get_changed_paths scenario_change_info
          = Ok {[ "build/ci/src"; "build/ci/" ]})
    as Hdirs by (vm_compute; reflexivity).
  exact (conj Hfiles (conj Hdirs
           (changed_sets_at_most_file_infos _ _ _ Hfiles Hdirs))).
Defined.

(** C5 as stated fails: two revisions that touch the same file count as two
    file infos and give one changed file. *)
Lemma find_changed_files_collapses_equal_paths :
  find_changed_files same_file_twice = Ok {[ "build/ci/optimized_targets.py" ]}
  ∧ size ({[ "build/ci/optimized_targets.py" ]} : gset string) = 1
  ∧ file_info_count same_file_twice = 2.
Proof. split; [|split]; vm_compute; reflexivity. Qed.

(** C6: the changed directories are exactly the strings
    [projectPath + "/" + dirname(path)], one for every file info under every
    revision under every change, with the directory name taken of the
    sub-path; a sub-path without a separator contributes [projectPath + "/"]. *)
Theorem changed_directories_exact ci dirs :
  get_changed_paths ci = Ok dirs →
  (∀ d, d ∈ dirs
        ↔ ∃ pp p, has_file ci pp p ∧ d = (pp +:+ "/") +:+ os_path.dirname p)
  ∧ (∀ pp p, has_file ci pp p → Str.contains "/" p = false →
             os_path.dirname p = "" ∧ pp +:+ "/" ∈ dirs).
Proof.
  intros [-> _]%get_changed_paths_collected.
  assert (∀ d, d ∈ (list_to_set ((λ e, (e.1 +:+ "/") +:+ os_path.dirname e.2)
                                   <$> file_entries ci) : gset string)
               ↔ ∃ pp p, has_file ci pp p
                         ∧ d = (pp +:+ "/") +:+ os_path.dirname p) as Hiff.
  { intros d. rewrite elem_of_list_to_set, list_elem_of_fmap. split.
    - intros ([pp p] & -> & Hin). exists pp, p.
      by rewrite <- file_entries_has_file.
    - intros (pp & p & Hin & ->). exists (pp, p).
      by rewrite file_entries_has_file. }
  split; [done|]. intros pp p Hfile Hflat.
  pose proof (dirname_without_slash p Hflat) as Hdir. split; [done|].
  apply Hiff. exists pp, p. split; [done|]. by rewrite Hdir, append_empty_r.
Qed.

Lemma changed_directories_exact_witness :
  get_changed_paths scenario_change_info = Ok {[ "build/ci/src"; "build/ci/" ]}
  ∧ (∀ d, d ∈ ({[ "build/ci/src"; "build/ci/" ]} : gset string)
          ↔ ∃ pp p, has_file scenario_change_info pp p
                    ∧ d = (pp +:+ "/") +:+ os_path.dirname p)
  ∧ (∀ pp p, has_file scenario_change_info pp p →
             Str.contains "/" p = false →
             os_path.dirname p = ""
             ∧ pp +:+ "/" ∈ ({[ "build/ci/src"; "build/ci/" ]} : gset string)).
Proof.
  assert (get_changed_paths scenario_change_info
          = Ok {[ "build/ci/src"; "build/ci/" ]})
    as Hdirs by (vm_compute; reflexivity).
  exact (conj Hdirs (changed_directories_exact _ _ Hdirs)).
Defined.

(** ** Running a method *)

Lemma bind_Ok {A B} (m : M A) (f : A → M B) w st b st' :
  (m ≫= f) w st = (Ok b, st') →
  ∃ a st1, m w st = (Ok a, st1) ∧ f a w st1 = (Ok b, st').
Proof.
  unfold mbind, M_bind. destruct (m w st) as [[a|e] st1]; [|done]. by exists a, st1.
Qed.

Lemma bind_run {A B} (m : M A) (f : A → M B) w st :
  (m ≫= f) w st
  = match m w st with
    | (Ok a, st1) => f a w st1
    | (Raise e, st1) => (Raise e, st1)
    end.
Proof. done. Qed.

(** ** Selection *)

Lemma module_outputs_found outputs module :
  GeneralTestsOptimizer.module_outputs outputs module ≠ []
  ↔ ∃ output, output ∈ outputs ∧ Str.contains module output = true.
Proof.
  unfold GeneralTestsOptimizer.module_outputs. split.
  - destruct (filter _ outputs) as [|output rest] eqn:Hf; [done|]. intros _.
    assert (output ∈ filter (λ o, Str.contains module o) outputs) as Hin
      by (rewrite Hf; left).
    apply list_elem_of_filter in Hin as [Hc Hin]. exists output.
    split; [done|]. by apply Is_true_true.
  - intros (output & Hin & Hc) Hnil.
    assert (output ∈ filter (λ o, Str.contains module o) outputs) as Hf.
    { apply list_elem_of_filter. split; [by apply Is_true_true|done]. }
    rewrite Hnil in Hf. by apply elem_of_nil in Hf.
Qed.

Lemma select_module_fold outputs (l : list string) acc m :
  m ∈ (foldl (GeneralTestsOptimizer.select_module outputs) acc l).1
  ↔ m ∈ acc.1
    ∨ (m ∈ l ∧ GeneralTestsOptimizer.module_outputs outputs m ≠ []).
Proof.
  revert acc. induction l as [|x l IH]; intros acc; simpl.
  - split; [by left|]. intros [?|[Hin _]]; [done|]. by apply elem_of_nil in Hin.
  - rewrite IH. unfold GeneralTestsOptimizer.select_module at 1.
    destruct (GeneralTestsOptimizer.module_outputs outputs x) as [|o os] eqn:Hx;
      simpl.
    + split; [intros [?|[? ?]]; [by left|right; split; [by right|done]]|].
      intros [?|[Hin Hne]]; [by left|]. apply elem_of_cons in Hin as [->|Hin].
      * by rewrite Hx in Hne.
      * right. by split.
    + rewrite elem_of_union, elem_of_singleton. split.
      * intros [[->|?]|[? ?]]; [right|by left|right; split; [by right|done]].
        split; [left|]. by rewrite Hx.
      * intros [?|[Hin Hne]]; [by left; right|].
        apply elem_of_cons in Hin as [->|Hin]; [by left; left|]. right. by split.
Qed.

(** What the loop of [get_build_targets_impl] selects: the required modules,
    and every discovered module that occurs in some line of the catalog. *)
Lemma select_modules_spec outputs test_modules m :
  m ∈ (GeneralTestsOptimizer.select_modules outputs test_modules).1
  ↔ m ∈ GeneralTestsOptimizer._REQUIRED_MODULES
    ∨ (m ∈ test_modules
       ∧ ∃ output, output ∈ outputs ∧ Str.contains m output = true).
Proof.
  unfold GeneralTestsOptimizer.select_modules.
  by rewrite select_module_fold, elem_of_elements, module_outputs_found.
Qed.

(** The set a run of [get_build_targets_impl] returns is the set its loop
    selects, for the catalog and the discovered modules of that run. *)
Lemma get_build_targets_impl_selects self w st modules st' :
  GeneralTestsOptimizer.get_build_targets_impl self w st = (Ok modules, st') →
  ∃ outputs test_modules,
    modules = (GeneralTestsOptimizer.select_modules outputs test_modules).1.
Proof.
  unfold GeneralTestsOptimizer.get_build_targets_impl.
  intros (outputs & st1 & _ & Hrest)%bind_Ok.
  apply bind_Ok in Hrest as (_ & st2 & _ & Hrest).
  apply bind_Ok in Hrest as (test_modules & st3 & _ & Hrest).
  exists outputs, test_modules.
  destruct (GeneralTestsOptimizer.select_modules outputs test_modules)
    as [selected build_outputs].
  apply bind_Ok in Hrest as (_ & st4 & _ & Hrest). by injection Hrest as <- _.
Qed.

(** C2: the set returned by [get_build_targets_impl] contains every required
    module, whatever the test infos, the catalog and the discovery result
    are.  The loop itself never drops one, and with no discovered module it
    selects the required modules and nothing else. *)
Theorem required_modules_selected self w st modules st' :
  GeneralTestsOptimizer.get_build_targets_impl self w st = (Ok modules, st') →
  GeneralTestsOptimizer._REQUIRED_MODULES ⊆ modules
  ∧ (∀ outputs test_modules,
       GeneralTestsOptimizer._REQUIRED_MODULES
       ⊆ (GeneralTestsOptimizer.select_modules outputs test_modules).1)
  ∧ (∀ outputs,
       (GeneralTestsOptimizer.select_modules outputs ∅).1
       = GeneralTestsOptimizer._REQUIRED_MODULES).
Proof.
  intros (outputs & test_modules & ->)%get_build_targets_impl_selects.
  split; [|split].
  - intros m Hm. apply select_modules_spec. by left.
  - intros outs tms m Hm. apply select_modules_spec. by left.
  - intros outs. unfold GeneralTestsOptimizer.select_modules.
    by rewrite elements_empty.
Qed.

Lemma required_modules_selected_witness :
  (GeneralTestsOptimizer.get_build_targets_impl
     optimized (scenario_world ["m1"]) (initial_state scenario_files)).1
  = Ok ({[ "m1" ]} ∪ GeneralTestsOptimizer._REQUIRED_MODULES)
  ∧ GeneralTestsOptimizer._REQUIRED_MODULES
    ⊆ {[ "m1" ]} ∪ GeneralTestsOptimizer._REQUIRED_MODULES.
Proof.
  assert ((GeneralTestsOptimizer.get_build_targets_impl
             optimized (scenario_world ["m1"]) (initial_state scenario_files)).1
          = Ok ({[ "m1" ]} ∪ GeneralTestsOptimizer._REQUIRED_MODULES))
    as Hrun by (vm_compute; reflexivity).
  exact (conj Hrun
           (proj1 (required_modules_selected _ _ _ _ _ (run_eq _ _ Hrun)))).
Defined.

(** C1, at the input where the code departs from it: discovery reports
    [module], the catalog has one line, under the directory [module_1].  No
    line has [module] as a path segment, and [module] is selected. *)
Theorem substring_of_segment_selected :
  (GeneralTestsOptimizer.get_build_targets_impl
     optimized (scenario_world ["module"]) (initial_state module_1_files)).1
  = Ok ({[ "module" ]} ∪ GeneralTestsOptimizer._REQUIRED_MODULES)
  ∧ _general_tests_outputs
      (GeneralTestsOptimizer.get_build_targets_impl
         optimized (scenario_world ["module"]) (initial_state module_1_files)).2
    = Some module_1_catalog
  ∧ Forall (λ output, Str.contains "/module/" output = false
                      ∧ Str.contains "module" output = true)
      module_1_catalog.
Proof.
  split; [vm_compute; reflexivity|]. split; [vm_compute; reflexivity|].
  repeat constructor.
Qed.

(** ** The configuration query *)

Lemma split_nonempty c s : Str.split c s ≠ [].
Proof.
  induction s as [|a s IH]; simpl; [done|]. case_decide; [done|].
  by destruct (Str.split c s).
Qed.

Lemma split_with_sep c s :
  Str.contains (String c "") s = true → ∃ f g rest, Str.split c s = f :: g :: rest.
Proof.
  induction s as [|a s IH]; simpl; [done|]. intros Hc.
  destruct (decide (a = c)) as [->|Hne].
  - pose proof (split_nonempty c s). destruct (Str.split c s) as [|g rest]; [done|].
    by exists "", g, rest.
  - destruct (decide (c = a)) as [->|_]; [done|]. simpl in Hc.
    destruct (IH Hc) as (f & g & rest & ->). by exists (String a f), g, rest.
Qed.

Lemma dumpvars_entry_with_sep line :
  Str.contains "=" line = true → ∃ kv, dumpvars_entry line = Ok kv.
Proof.
  intros (f & g & rest & Hs)%split_with_sep. unfold dumpvars_entry.
  rewrite Hs. simpl. by eexists.
Qed.

Lemma dumpvars_entry_without_sep line :
  Str.contains "=" line = false → dumpvars_entry line = Raise IndexError.
Proof.
  intros Hs%split_without_sep. unfold dumpvars_entry. by rewrite Hs.
Qed.

Lemma dumpvars_entry_cases line :
  (∃ kv, dumpvars_entry line = Ok kv) ∨ dumpvars_entry line = Raise IndexError.
Proof.
  destruct (Str.contains "=" line) eqn:Hc.
  - left. by apply dumpvars_entry_with_sep.
  - right. by apply dumpvars_entry_without_sep.
Qed.

Lemma dumpvars_loop_raises lines d :
  (∃ line, line ∈ lines ∧ Str.contains "=" line = false) →
  for_res lines d dumpvars_body = Raise IndexError.
Proof.
  revert d. induction lines as [|l lines IH]; intros d (line & Hin & Hline).
  - by apply elem_of_nil in Hin.
  - simpl. unfold dumpvars_body at 1.
    apply elem_of_cons in Hin as [->|Hin].
    + by rewrite (dumpvars_entry_without_sep _ Hline).
    + destruct (dumpvars_entry_cases l) as [[[k v] ->]| ->]; [|done]. simpl.
      apply IH. by exists line.
Qed.

Lemma dumpvars_loop_returns lines d :
  (∀ line, line ∈ lines → Str.contains "=" line = true) →
  ∃ d', for_res lines d dumpvars_body = Ok d'.
Proof.
  revert d. induction lines as [|l lines IH]; intros d Hall; simpl.
  - by exists d.
  - unfold dumpvars_body at 1.
    destruct (dumpvars_entry_with_sep l) as [[k v] ->]; [apply Hall; left|].
    simpl. apply IH. intros line Hin. apply Hall. by right.
Qed.

(** The query, step by step, once the process has returned. *)
Lemma query_soong_vars_run src_top soong_vars w st process_result :
  subprocess_run w (dumpvars_args src_top soong_vars) = Ok process_result →
  _query_soong_vars src_top soong_vars w st
  = let st1 := add_event (SubprocessRun (dumpvars_args src_top soong_vars)) st in
    if negb (returncode process_result =? 0)%Z then
      (Raise (RuntimeError dumpvars_failed),
       add_event (LoggingError (stderr process_result))
         (add_event (LoggingError "soong dumpvars command failed! stderr:") st1))
    else if negb (Str.nonempty (stdout process_result)) then
      (Raise (TypeError "can only concatenate str (not 'list') to str"), st1)
    else
      match dumpvars_dict (stdout process_result) with
      | Raise IndexError =>
          (Raise (RuntimeError (dumpvars_unparsed (stdout process_result))), st1)
      | r => (r, st1)
      end.
Proof.
  intros Hrun. unfold _query_soong_vars.
  rewrite bind_run. simpl. rewrite bind_run. unfold call at 1. rewrite Hrun.
  destruct (negb (returncode process_result =? 0)%Z); [done|].
  destruct (negb (Str.nonempty (stdout process_result))); [done|].
  by destruct (dumpvars_dict (stdout process_result)) as [d|[]].
Qed.

(** C7: what [_query_soong_vars] does with the outcome of the process.  A
    non-zero exit raises the error whose message contains "dumpvars failed";
    an empty stdout raises; a line without ['='] raises an error whose
    message contains "parsing" and is not the exit-code message.  In each
    of the three cases an exception is the whole result.  When every line
    has its ['='] the query returns a dict. *)
Theorem query_soong_vars_failures src_top soong_vars w st process_result :
  subprocess_run w (dumpvars_args src_top soong_vars) = Ok process_result →
  (returncode process_result ≠ 0%Z →
     ∃ st', _query_soong_vars src_top soong_vars w st
            = (Raise (RuntimeError dumpvars_failed), st')
            ∧ Str.contains "dumpvars failed" dumpvars_failed = true)
  ∧ (returncode process_result = 0%Z → stdout process_result = "" →
     ∃ e st', _query_soong_vars src_top soong_vars w st = (Raise e, st'))
  ∧ (returncode process_result = 0%Z → stdout process_result ≠ "" →
     (∃ line, line ∈ dumpvars_lines (stdout process_result)
              ∧ Str.contains "=" line = false) →
     ∃ msg st', _query_soong_vars src_top soong_vars w st
                = (Raise (RuntimeError msg), st')
                ∧ Str.contains "parsing" msg = true
                ∧ msg ≠ dumpvars_failed)
  ∧ (returncode process_result = 0%Z → stdout process_result ≠ "" →
     (∀ line, line ∈ dumpvars_lines (stdout process_result) →
              Str.contains "=" line = true) →
     ∃ vars st', _query_soong_vars src_top soong_vars w st = (Ok vars, st')).
Proof.
  intros Hrun. rewrite (query_soong_vars_run _ _ _ _ _ Hrun). cbv zeta.
  split; [|split; [|split]].
  - intros Hcode. destruct (Z.eqb_spec (returncode process_result) 0); [done|].
    simpl. eexists. split; reflexivity.
  - intros -> ->. simpl. by eexists _, _.
  - intros -> Hout Hline. simpl.
    destruct (stdout process_result) as [|a out] eqn:Hstdout; [done|]. simpl.
    unfold dumpvars_dict. rewrite (dumpvars_loop_raises _ _ Hline).
    eexists _, _. split; [reflexivity|]. split; [|done].
    unfold dumpvars_unparsed.
    by apply (contains_app_l "parsing"
                "Error parsing soong dumpvars output! See output here: ").
  - intros -> Hout Hlines. simpl.
    destruct (stdout process_result) as [|a out] eqn:Hstdout; [done|]. simpl.
    unfold dumpvars_dict.
    destruct (dumpvars_loop_returns _ ∅ Hlines) as [d ->]. by eexists _, _.
Qed.

Lemma query_soong_vars_failures_witness :
  ∃ msg st',
    _query_soong_vars (pathlib.of_str "/top") ["PRODUCT_OUT"]
      (dumpvars_world 0 "This output is bad") (initial_state ∅)
    = (Raise (RuntimeError msg), st')
    ∧ Str.contains "parsing" msg = true
    ∧ msg ≠ dumpvars_failed.
Proof.
  destruct (query_soong_vars_failures (pathlib.of_str "/top") ["PRODUCT_OUT"]
              (dumpvars_world 0 "This output is bad") (initial_state ∅)
              _ eq_refl) as (_ & _ & Hparse & _).
  apply Hparse; [reflexivity|discriminate|].
  exists "This output is bad". split; [vm_compute; left|reflexivity].
Defined.

(** ** The trace only grows *)

Lemma extends_ret {A} (a : A) : extends (mret a).
Proof. by intros w st r st' [= _ <-]. Qed.

Lemma extends_bind {A B} (m : M A) (f : A → M B) :
  extends m → (∀ a, extends (f a)) → extends (m ≫= f).
Proof.
  intros Hm Hf w st r st'. rewrite bind_run.
  destruct (m w st) as [[a|e] st1] eqn:Hrun.
  - intros Hrest. etrans; [by eapply Hm|by eapply Hf].
  - intros [= _ <-]. by eapply Hm.
Qed.

Lemma extends_raise {A} e : extends (@raise A e).
Proof. by intros w st r st' [= _ <-]. Qed.

Lemma extends_lift {A} (x : res A) : extends (lift x).
Proof. by intros w st r st' [= _ <-]. Qed.

Lemma extends_ask {A} (f : World → A) : extends (ask f).
Proof. by intros w st r st' [= _ <-]. Qed.

Lemma extends_call {A} (f : World → res A) : extends (call f).
Proof. by intros w st r st' [= _ <-]. Qed.

Lemma extends_attribute {A} name (f : State → option A) : extends (attribute name f).
Proof. intros w st r st'. unfold attribute. by destruct (f st); intros [= _ <-]. Qed.

Lemma extends_modify (f : State → State) :
  (∀ st, trace st `prefix_of` trace (f st)) → extends (modify f).
Proof. intros Hf w st r st' [= _ <-]. apply Hf. Qed.

Lemma extends_emit ev : extends (emit ev).
Proof. apply extends_modify. intros st. by apply prefix_app_r. Qed.

Lemma extends_try_except {A} (body : M A) handler :
  extends body → (∀ e, extends (handler e)) → extends (try_except body handler).
Proof.
  intros Hb Hh w st r st'. unfold try_except.
  destruct (body w st) as [[a|e] st1] eqn:Hrun.
  - intros [= _ <-]. by eapply Hb.
  - intros Hrest. etrans; [by eapply Hb|by eapply Hh].
Qed.

Lemma extends_for_fold {A S} (l : list A) (acc : S) (body : S → A → M S) :
  (∀ acc x, extends (body acc x)) → extends (for_fold l acc body).
Proof.
  intros Hb. revert acc. induction l as [|x l IH]; intros acc; simpl.
  - apply extends_ret.
  - apply extends_bind; [apply Hb|apply IH].
Qed.

Lemma extends_for_each {A} (l : list A) (body : A → M ()) :
  (∀ x, extends (body x)) → extends (for_each l body).
Proof.
  intros Hb. induction l as [|x l IH]; simpl.
  - apply extends_ret.
  - apply extends_bind; [apply Hb|intros _; apply IH].
Qed.

Lemma extends_open_readlines p : extends (open_readlines p).
Proof.
  intros w st r st'. unfold open_readlines. by destruct (files st !! p); intros [= _ <-].
Qed.

Lemma extends_open_w p : extends (open_w p).
Proof.
  intros w st r st'. unfold open_w. by destruct (writable w p); intros [= _ <-].
Qed.

Lemma extends_write p text : extends (write p text).
Proof. by apply extends_modify. Qed.

Ltac extends_step :=
  first
    [ apply extends_bind; [|intros ?]
    | apply extends_ret | apply extends_raise | apply extends_lift
    | apply extends_ask | apply extends_call | apply extends_attribute
    | apply extends_emit | apply extends_open_readlines | apply extends_open_w
    | apply extends_write
    | apply extends_modify; intros ?; reflexivity
    | apply extends_try_except; [|intros ?]
    | apply extends_for_fold; intros ? ?
    | apply extends_for_each; intros ?
    | match goal with
      | |- extends (if ?b then _ else _) => destruct b
      | |- extends (match ?x with _ => _ end) => destruct x
      | |- extends (let '(_, _) := ?x in _) => destruct x
      end ].

Ltac extends := repeat extends_step.

Lemma extends_query_soong_vars src_top soong_vars :
  extends (_query_soong_vars src_top soong_vars).
Proof. unfold _query_soong_vars. extends. Qed.

Lemma extends_get_build_targets_impl self :
  extends (GeneralTestsOptimizer.get_build_targets_impl self).
Proof.
  unfold GeneralTestsOptimizer.get_build_targets_impl,
    GeneralTestsOptimizer._get_general_tests_outputs,
    GeneralTestsOptimizer._get_test_discovery_modules,
    GeneralTestsOptimizer.src_top_of_environ, environ_get, Path_of,
    ChangeInfo_init.
  extends; apply extends_query_soong_vars.
Qed.

(** ** Pass-through *)

Lemma get_build_targets_without_flag self w st :
  "general_tests_optimized" ∉ enabled_build_features self →
  GeneralTestsOptimizer.get_build_targets self w st
  = let st1 :=
      if bool_decide (target self = "general-tests")
      then (@_report_info_metrics_silently GeneralTestsOptimizer.methods
              self "general-tests.zip" w st).2
      else st in
    (Ok {[ target self ]}, set_modules_to_build {[ target self ]} st1).
Proof.
  intros Hflag. unfold GeneralTestsOptimizer.get_build_targets, get_build_targets.
  rewrite bind_run. simpl. rewrite bool_decide_eq_false_2 by done.
  rewrite bind_run. destruct (bool_decide (target self = "general-tests")); [|done].
  unfold _report_info_metrics_silently, try_except.
  by destruct (report_info_metrics self "general-tests.zip" w st) as [[[]|e] st1].
Qed.

(** C3: without the flag [general_tests_optimized] among the enabled
    features, [get_build_targets] returns the set holding the target alone
    and [get_package_outputs_commands] returns the empty list, whatever the
    catalog files and the collaborators hold.  [NullOptimizer] returns the
    same in every case and leaves the state, and so the trace of
    collaborator calls, as it was. *)
Theorem passthrough_without_flag self w st :
  "general_tests_optimized" ∉ enabled_build_features self →
  (∃ st', GeneralTestsOptimizer.get_build_targets self w st
          = (Ok {[ target self ]}, st'))
  ∧ GeneralTestsOptimizer.get_package_outputs_commands self w st = (Ok [], st)
  ∧ NullOptimizer.get_build_targets (target self) w st
    = (Ok {[ target self ]}, st)
  ∧ NullOptimizer.get_package_outputs_commands (target self) w st = (Ok [], st).
Proof.
  intros Hflag. split; [|split; [|done]].
  - rewrite get_build_targets_without_flag by done. by eexists.
  - unfold GeneralTestsOptimizer.get_package_outputs_commands,
      get_package_outputs_commands.
    rewrite bind_run. simpl. by rewrite bool_decide_eq_false_2.
Qed.

Lemma passthrough_without_flag_witness :
  (∃ st', GeneralTestsOptimizer.get_build_targets
            not_optimized (scenario_world ["m1"]) (initial_state scenario_files)
          = (Ok {[ "general-tests" ]}, st'))
  ∧ GeneralTestsOptimizer.get_package_outputs_commands
      not_optimized (scenario_world ["m1"]) (initial_state scenario_files)
    = (Ok [], initial_state scenario_files)
  ∧ NullOptimizer.get_build_targets "general-tests"
      (scenario_world ["m1"]) (initial_state scenario_files)
    = (Ok {[ "general-tests" ]}, initial_state scenario_files)
  ∧ NullOptimizer.get_package_outputs_commands "general-tests"
      (scenario_world ["m1"]) (initial_state scenario_files)
    = (Ok [], initial_state scenario_files).
Proof.
  apply (passthrough_without_flag not_optimized). by vm_compute.
Defined.

(** ** Silent metrics *)

Lemma extends_report_info_metrics self artifact_name :
  extends (@report_info_metrics GeneralTestsOptimizer.methods self artifact_name).
Proof.
  unfold report_info_metrics. extends.
Qed.

Lemma report_info_metrics_attempted self artifact_name w st r st' :
  @report_info_metrics GeneralTestsOptimizer.methods self artifact_name w st
  = (r, st') →
  (trace st ++ [MetricsInstance]) `prefix_of` trace st'.
Proof.
  unfold report_info_metrics. rewrite bind_run. simpl.
  change (trace st ++ [MetricsInstance]) with (trace (add_event MetricsInstance st)).
  generalize (add_event MetricsInstance st). intros st0 Hrun.
  assert (extends (call MetricsAgent_instance;;
                   targets ← GeneralTestsOptimizer.get_build_targets_impl self;
                   emit (ReportOptimizedTarget (target self));;
                   call (λ w, report_optimized_target w (target self));;
                   emit (AddTargetArtifact (target self) artifact_name 0 targets);;
                   call (λ w, add_target_artifact w (target self)
                                artifact_name 0%Z targets))) as Hext.
  { extends. }
  by eapply Hext.
Qed.

Lemma report_info_metrics_Ok self artifact_name w st st1 :
  @report_info_metrics GeneralTestsOptimizer.methods self artifact_name w st
  = (Ok (), st1) →
  ∃ targets s2,
    MetricsAgent_instance w = Ok ()
    ∧ GeneralTestsOptimizer.get_build_targets_impl self w
        (add_event MetricsInstance st) = (Ok targets, s2)
    ∧ report_optimized_target w (target self) = Ok ()
    ∧ add_target_artifact w (target self) artifact_name 0 targets = Ok ()
    ∧ st1 = add_event (AddTargetArtifact (target self) artifact_name 0 targets)
              (add_event (ReportOptimizedTarget (target self)) s2).
Proof.
  unfold report_info_metrics.
  intros (u0 & s0 & Hemit & H)%bind_Ok. injection Hemit as _ <-.
  apply bind_Ok in H as ([] & s1 & Hagent & H).
  unfold call in Hagent. injection Hagent as Hagent <-.
  apply bind_Ok in H as (targets & s2 & Himpl & H).
  apply bind_Ok in H as (u3 & s3 & Hemit & H). injection Hemit as _ <-.
  apply bind_Ok in H as ([] & s4 & Hreport & H).
  unfold call in Hreport. injection Hreport as Hreport <-.
  apply bind_Ok in H as (u5 & s5 & Hemit & H). injection Hemit as _ <-.
  unfold call in H. injection H as Hartifact <-.
  by exists targets, s2.
Qed.

(** C9: on the pass-through path of the general-tests target the metrics
    report is attempted, and whatever any collaborator does
    [get_build_targets] returns the set holding the target alone.  The
    report starts by asking for the metrics agent.  When nothing in it
    raises, the agent was there, [get_build_targets_impl] returned the
    targets, and the two notifications, of the optimized target and of its
    artifact with these targets, were made and are the last events of the
    trace.  When something in it raises, the exception is not raised
    further: one line of the error log is written for it, after what the
    report had done so far. *)
Theorem metrics_failure_not_propagated self w st :
  "general_tests_optimized" ∉ enabled_build_features self →
  target self = "general-tests" →
  ∃ st',
    GeneralTestsOptimizer.get_build_targets self w st
    = (Ok {[ "general-tests" ]}, st')
    ∧ (trace st ++ [MetricsInstance]) `prefix_of` trace st'
    ∧ (∀ st1,
         @report_info_metrics GeneralTestsOptimizer.methods
           self "general-tests.zip" w st = (Ok (), st1) →
         ∃ targets s2,
           MetricsAgent_instance w = Ok ()
           ∧ GeneralTestsOptimizer.get_build_targets_impl self w
               (add_event MetricsInstance st) = (Ok targets, s2)
           ∧ report_optimized_target w "general-tests" = Ok ()
           ∧ add_target_artifact w "general-tests" "general-tests.zip" 0 targets
             = Ok ()
           ∧ trace st'
             = trace s2
               ++ [ ReportOptimizedTarget "general-tests";
                    AddTargetArtifact "general-tests" "general-tests.zip" 0
                      targets ])
    ∧ (∀ e st1,
         @report_info_metrics GeneralTestsOptimizer.methods
           self "general-tests.zip" w st = (Raise e, st1) →
         trace st'
         = trace st1
           ++ [LoggingErrorWith "error while silently reporting metrics: " e]).
Proof.
  intros Hflag Htarget. rewrite get_build_targets_without_flag by done.
  rewrite Htarget. simpl. eexists. split; [reflexivity|].
  unfold _report_info_metrics_silently, try_except.
  destruct (report_info_metrics self "general-tests.zip" w st)
    as [[[]|e] st1] eqn:Hrun; simpl.
  - split; [by eapply report_info_metrics_attempted|]. split; [|by intros e st2 [=]].
    intros st2 [= <-].
    apply report_info_metrics_Ok in Hrun
      as (targets & s2 & Hagent & Himpl & Hreport & Hartifact & ->).
    rewrite Htarget in Hreport, Hartifact. exists targets, s2.
    do 4 (split; [done|]). rewrite Htarget. cbn [trace add_event].
    by rewrite <- (assoc_L (++)).
  - split.
    + etrans; [by eapply report_info_metrics_attempted|]. by apply prefix_app_r.
    + split; [by intros st2 [=]|]. by intros e' st2 [= <- <-].
Qed.

Lemma metrics_failure_not_propagated_witness :
  (∃ st',
     GeneralTestsOptimizer.get_build_targets
       not_optimized scenario_world_no_metrics (initial_state scenario_files)
     = (Ok {[ "general-tests" ]}, st')
     ∧ trace st'
       = [ MetricsInstance;
           LoggingErrorWith "error while silently reporting metrics: "
             (CollaboratorError "metrics agent unavailable") ])
  ∧ (∃ st' targets s2,
       GeneralTestsOptimizer.get_build_targets
         not_optimized (scenario_world ["m1"]) (initial_state scenario_files)
       = (Ok {[ "general-tests" ]}, st')
       ∧ trace st'
         = trace s2
           ++ [ ReportOptimizedTarget "general-tests";
                AddTargetArtifact "general-tests" "general-tests.zip" 0 targets ]).
Proof.
  split.
  - destruct (metrics_failure_not_propagated not_optimized
                scenario_world_no_metrics (initial_state scenario_files))
      as (st' & Hrun & _ & _ & Hlog); [by vm_compute|reflexivity|].
    exists st'. split; [exact Hrun|].
    by rewrite (Hlog (CollaboratorError "metrics agent unavailable")
                  (add_event MetricsInstance (initial_state scenario_files))
                  eq_refl).
  - destruct (metrics_failure_not_propagated not_optimized
                (scenario_world ["m1"]) (initial_state scenario_files))
      as (st' & Hrun & _ & Hdone & _); [by vm_compute|reflexivity|].
    assert ((@report_info_metrics GeneralTestsOptimizer.methods not_optimized
               "general-tests.zip" (scenario_world ["m1"])
               (initial_state scenario_files)).1 = Ok ())
      as Hreport by (vm_compute; reflexivity).
    destruct (Hdone _ (run_eq _ _ Hreport))
      as (targets & s2 & _ & _ & _ & _ & Htrace).
    by exists st', targets, s2.
Defined.

(** ** The config archives *)

Lemma relpath_nonempty cwd p start :
  p ≠ "" → ∃ relative, os_path.relpath cwd p start = Ok relative.
Proof.
  intros Hp. unfold os_path.relpath.
  destruct p as [|a p]; [done|]. cbn [Str.nonempty negb].
  match goal with |- context [match ?l with [] => _ | _ => _ end] => destruct l end;
    by eexists.
Qed.

Lemma relpath_empty cwd start :
  os_path.relpath cwd "" start = Raise (ValueError "no path specified").
Proof. reflexivity. Qed.

Lemma relpath_raises cwd p start e :
  os_path.relpath cwd p start = Raise e → e = ValueError "no path specified".
Proof.
  destruct p as [|a p]; [by intros [= <-]|].
  destruct (relpath_nonempty cwd (String a p) start) as [relative ->]; done.
Qed.

(** A loop whose body returns on the items that satisfy [P] and raises [e]
    on the others returns when all items satisfy [P], and raises [e] at the
    first that does not. *)
Lemma for_each_run {A} (P : A → Prop) `{!∀ x, Decision (P x)} e
    (l : list A) (body : A → M ()) :
  (∀ x w st, P x → ∃ st', body x w st = (Ok (), st')) →
  (∀ x w st, ¬ P x → ∃ st', body x w st = (Raise e, st')) →
  ∀ w st,
    (Forall P l ∧ ∃ st', for_each l body w st = (Ok (), st'))
    ∨ (¬ Forall P l ∧ ∃ st', for_each l body w st = (Raise e, st')).
Proof.
  intros Hok Hraise w. induction l as [|x l IH]; intros st; simpl.
  - left. split; [constructor|by eexists].
  - rewrite bind_run. destruct (decide (P x)) as [Hx|Hx].
    + destruct (Hok x w st Hx) as [st1 ->].
      destruct (IH st1) as [[Hl Hrun]|[Hl Hrun]].
      * left. split; [by constructor|done].
      * right. split; [|done]. by intros [_ ?]%Forall_cons.
    + destruct (Hraise x w st Hx) as [st1 ->].
      right. split; [|by eexists]. by intros [? _]%Forall_cons.
Qed.

Lemma not_all_nonempty (l : list string) :
  ¬ Forall (λ f, f ≠ "") l ↔ "" ∈ l.
Proof.
  split.
  - intros Hl. apply not_Forall_Exists in Hl; [|apply _].
    apply Exists_exists in Hl as (x & Hx & Hempty).
    by destruct (decide (x = "")) as [->|].
  - intros Hin Hl. by apply (proj1 (Forall_forall _ _) Hl "" Hin).
Qed.

(** One turn of a loop over the config files returns for a path that is
    not empty. *)
Lemma config_file_turn_ok side_list combined_list side cwd root config_file w st :
  config_file ≠ "" →
  ∃ st',
    (write side_list (config_file +:+ NL);;
     relative ← lift (os_path.relpath cwd config_file root);
     write combined_list (side +:+ relative +:+ NL)) w st
    = (Ok (), st').
Proof.
  intros Hp.
  destruct (relpath_nonempty cwd config_file root Hp) as [relative Hrel].
  rewrite bind_run. unfold write at 1, modify. cbv beta iota.
  rewrite bind_run. rewrite Hrel. by eexists.
Qed.

(** And raises the [ValueError] of [relpath] for the empty path. *)
Lemma config_file_turn_empty side_list combined_list side cwd root config_file w st :
  ¬ config_file ≠ "" →
  ∃ st',
    (write side_list (config_file +:+ NL);;
     relative ← lift (os_path.relpath cwd config_file root);
     write combined_list (side +:+ relative +:+ NL)) w st
    = (Raise (ValueError "no path specified"), st').
Proof.
  intros Hp. assert (config_file = "") as -> by (by destruct (decide (config_file = ""))).
  by eexists.
Qed.

Lemma open_w_writable p w st :
  writable w p = true →
  open_w p w st = (Ok (), set_files (<[p := ""]> (files st)) st).
Proof. unfold open_w. by intros ->. Qed.

Lemma open_w_refused p w st :
  writable w p = false → open_w p w st = (Raise (OSError p), st).
Proof. unfold open_w. by intros ->. Qed.

(** A segment built with a list file carries its [-l] option. *)
Lemma zip_options_list_files_flag prefix relative_root list_files files
    directories segment :
  truthy list_files = true →
  _generate_zip_options_for_items prefix relative_root list_files files directories
  = Ok segment →
  "-l" ∈ segment.
Proof.
  unfold _generate_zip_options_for_items. intros Hl. rewrite Hl. simpl.
  intros [= <-]. destruct list_files as [[|x xs]|]; try done.
  destruct (truthy files), (truthy directories);
    rewrite ?elem_of_app; repeat
      match goal with
      | |- _ ∨ "-l" ∈ flagged "-f" _ => left
      | |- _ ∨ "-l" ∈ flagged "-D" _ => left
      end; right; simpl; left.
Qed.

Lemma zip_options_list_file_built prefix relative_root list_file :
  ∃ segment,
    _generate_zip_options_for_items prefix relative_root
      (Some [list_file]) None None = Ok segment.
Proof. by eexists. Qed.

Lemma zip_options_file_built prefix relative_root file :
  ∃ segment,
    _generate_zip_options_for_items prefix relative_root
      None (Some [file]) None = Ok segment.
Proof. by eexists. Qed.

(** The config files [get_package_outputs_commands_impl] passes on end with
    [.config] and a newline: none of them is the empty path. *)
Lemma config_files_nonempty outputs :
  Forall (λ f, f ≠ "") (GeneralTestsOptimizer.config_files outputs).
Proof.
  apply Forall_forall. intros f Hin ->.
  unfold GeneralTestsOptimizer.config_files in Hin.
  by apply list_elem_of_filter in Hin as [Hconfig _].
Qed.

(** The runs of [_get_zip_test_configs_zips_commands], from the segments
    the builder returns: a list that cannot be opened, an empty path among
    the config files, or the two commands. *)
Lemma config_commands_run src_top dist_dir host_out product_out
    host_config_files target_config_files w st
    host_segment target_segment list_segment :
  _generate_zip_options_for_items "host" (pathlib.str host_out)
    (Some [GeneralTestsOptimizer.host_list_path host_out]) None None
  = Ok host_segment →
  _generate_zip_options_for_items "target" (pathlib.str product_out)
    (Some [GeneralTestsOptimizer.target_list_path product_out]) None None
  = Ok target_segment →
  _generate_zip_options_for_items "" (pathlib.str host_out)
    None (Some [GeneralTestsOptimizer.list_path host_out]) None
  = Ok list_segment →
  (∃ p st', GeneralTestsOptimizer._get_zip_test_configs_zips_commands
              src_top dist_dir host_out product_out
              host_config_files target_config_files w st
            = (Raise (OSError p), st')
            ∧ (writable w (GeneralTestsOptimizer.host_list_path host_out) = false
               ∨ writable w (GeneralTestsOptimizer.target_list_path product_out)
                 = false
               ∨ writable w (GeneralTestsOptimizer.list_path host_out) = false))
  ∨ (∃ st', GeneralTestsOptimizer._get_zip_test_configs_zips_commands
              src_top dist_dir host_out product_out
              host_config_files target_config_files w st
            = (Raise (ValueError "no path specified"), st')
            ∧ writable w (GeneralTestsOptimizer.host_list_path host_out) = true
            ∧ writable w (GeneralTestsOptimizer.target_list_path product_out) = true
            ∧ writable w (GeneralTestsOptimizer.list_path host_out) = true
            ∧ ("" ∈ host_config_files ∨ "" ∈ target_config_files))
  ∨ (∃ st', GeneralTestsOptimizer._get_zip_test_configs_zips_commands
              src_top dist_dir host_out product_out
              host_config_files target_config_files w st
            = (Ok [ _base_zip_command src_top dist_dir "general-tests_configs.zip"
                      ++ host_segment ++ target_segment;
                    _base_zip_command src_top dist_dir "general-tests_list.zip"
                      ++ list_segment ], st')
            ∧ writable w (GeneralTestsOptimizer.host_list_path host_out) = true
            ∧ writable w (GeneralTestsOptimizer.target_list_path product_out) = true
            ∧ writable w (GeneralTestsOptimizer.list_path host_out) = true
            ∧ Forall (λ f, f ≠ "") host_config_files
            ∧ Forall (λ f, f ≠ "") target_config_files).
Proof.
  intros Hhost Htarget Hlist.
  unfold GeneralTestsOptimizer._get_zip_test_configs_zips_commands.
  rewrite bind_run.
  destruct (writable w (GeneralTestsOptimizer.host_list_path host_out)) eqn:W1;
    [rewrite (open_w_writable _ _ _ W1)
    |rewrite (open_w_refused _ _ _ W1); left; eexists _, _; split; [done|auto]].
  rewrite bind_run.
  destruct (writable w (GeneralTestsOptimizer.target_list_path product_out)) eqn:W2;
    [rewrite (open_w_writable _ _ _ W2)
    |rewrite (open_w_refused _ _ _ W2); left; eexists _, _; split; [done|auto]].
  rewrite bind_run.
  destruct (writable w (GeneralTestsOptimizer.list_path host_out)) eqn:W3;
    [rewrite (open_w_writable _ _ _ W3)
    |rewrite (open_w_refused _ _ _ W3); left; eexists _, _; split; [done|auto]].
  rewrite bind_run. unfold ask. cbv beta iota. rewrite bind_run.
  match goal with
  | |- context [for_each host_config_files ?body w ?s] =>
      destruct (for_each_run (λ f, f ≠ "") (ValueError "no path specified")
                  host_config_files body
                  ltac:(intros; by apply config_file_turn_ok)
                  ltac:(intros; by apply config_file_turn_empty) w s)
        as [[Hh [st1 ->]]|[Hh [st1 ->]]]
  end;
    [|right; left; exists st1; apply not_all_nonempty in Hh;
      repeat split; auto].
  rewrite bind_run.
  match goal with
  | |- context [for_each target_config_files ?body w ?s] =>
      destruct (for_each_run (λ f, f ≠ "") (ValueError "no path specified")
                  target_config_files body
                  ltac:(intros; by apply config_file_turn_ok)
                  ltac:(intros; by apply config_file_turn_empty) w s)
        as [[Ht [st2 ->]]|[Ht [st2 ->]]]
  end;
    [|right; left; exists st2; apply not_all_nonempty in Ht;
      repeat split; auto].
  right; right. rewrite Hhost, Htarget, Hlist. simpl. exists st2.
  repeat split; done.
Qed.

Lemma no_config_files_run src_top dist_dir host_out product_out w st :
  writable w (GeneralTestsOptimizer.host_list_path host_out) = true →
  writable w (GeneralTestsOptimizer.target_list_path product_out) = true →
  writable w (GeneralTestsOptimizer.list_path host_out) = true →
  (GeneralTestsOptimizer._get_zip_test_configs_zips_commands
     src_top dist_dir host_out product_out [] [] w st).2
  = set_files
      (<[GeneralTestsOptimizer.list_path host_out := ""]>
         (<[GeneralTestsOptimizer.target_list_path product_out := ""]>
            (<[GeneralTestsOptimizer.host_list_path host_out := ""]> (files st))))
      st.
Proof.
  intros W1 W2 W3.
  unfold GeneralTestsOptimizer._get_zip_test_configs_zips_commands.
  rewrite bind_run, (open_w_writable _ _ _ W1).
  rewrite bind_run, (open_w_writable _ _ _ W2).
  rewrite bind_run, (open_w_writable _ _ _ W3).
  reflexivity.
Qed.

(** C10 (amended): whatever the selection, also with no config file at all,
    the three segments of the config archives are built without the
    [RuntimeError] of the segment builder: the two of the configs archive
    with a list file each (the host and the target manifest), the one of the
    list archive with no list file and with the combined list as its one
    member file.  The function never raises that [RuntimeError].  When the
    three lists can be opened and no config file is the empty path, it
    returns both commands, in this order, and with no config file at all the
    three lists it names are left empty.  When the three lists can be opened
    and a config file is the empty path, [os.path.relpath] raises its
    [ValueError] and no command is returned; the config files that
    [get_package_outputs_commands_impl] passes on are never the empty
    path. *)
Theorem config_archives_never_empty src_top dist_dir host_out product_out
    host_config_files target_config_files w st :
  ∃ host_segment target_segment list_segment,
    _generate_zip_options_for_items "host" (pathlib.str host_out)
      (Some [GeneralTestsOptimizer.host_list_path host_out]) None None
    = Ok host_segment
    ∧ _generate_zip_options_for_items "target" (pathlib.str product_out)
        (Some [GeneralTestsOptimizer.target_list_path product_out]) None None
      = Ok target_segment
    ∧ _generate_zip_options_for_items "" (pathlib.str host_out)
        None (Some [GeneralTestsOptimizer.list_path host_out]) None
      = Ok list_segment
    ∧ ¬ is_RuntimeError
          (GeneralTestsOptimizer._get_zip_test_configs_zips_commands
             src_top dist_dir host_out product_out
             host_config_files target_config_files w st).1
    ∧ (writable w (GeneralTestsOptimizer.host_list_path host_out) = true →
       writable w (GeneralTestsOptimizer.target_list_path product_out) = true →
       writable w (GeneralTestsOptimizer.list_path host_out) = true →
       (Forall (λ f, f ≠ "") host_config_files →
        Forall (λ f, f ≠ "") target_config_files →
        ∃ st',
          GeneralTestsOptimizer._get_zip_test_configs_zips_commands
            src_top dist_dir host_out product_out
            host_config_files target_config_files w st
          = (Ok [ _base_zip_command src_top dist_dir "general-tests_configs.zip"
                    ++ host_segment ++ target_segment;
                  _base_zip_command src_top dist_dir "general-tests_list.zip"
                    ++ list_segment ], st')
          ∧ (host_config_files = [] → target_config_files = [] →
             files st' !! GeneralTestsOptimizer.host_list_path host_out = Some ""
             ∧ files st' !! GeneralTestsOptimizer.target_list_path product_out
               = Some ""
             ∧ files st' !! GeneralTestsOptimizer.list_path host_out = Some ""))
       ∧ ("" ∈ host_config_files ∨ "" ∈ target_config_files →
          ∃ st',
            GeneralTestsOptimizer._get_zip_test_configs_zips_commands
              src_top dist_dir host_out product_out
              host_config_files target_config_files w st
            = (Raise (ValueError "no path specified"), st')))
    ∧ (∀ outputs,
         Forall (λ f, f ≠ "") (GeneralTestsOptimizer.config_files outputs)).
Proof.
  destruct (zip_options_list_file_built "host" (pathlib.str host_out)
              (GeneralTestsOptimizer.host_list_path host_out)) as [hs Hhost].
  destruct (zip_options_list_file_built "target" (pathlib.str product_out)
              (GeneralTestsOptimizer.target_list_path product_out)) as [ts Htarget].
  destruct (zip_options_file_built "" (pathlib.str host_out)
              (GeneralTestsOptimizer.list_path host_out)) as [ls Hlist].
  exists hs, ts, ls. do 3 (split; [done|]).
  destruct (config_commands_run src_top dist_dir host_out product_out
              host_config_files target_config_files w st hs ts ls
              Hhost Htarget Hlist)
    as [(p & st' & Hrun & Hp)
       |[(st' & Hrun & W1 & W2 & W3 & Hempty)
        |(st' & Hrun & W1 & W2 & W3 & Hh & Ht)]].
  - rewrite Hrun. split; [by intros []|].
    split; [|apply config_files_nonempty]. intros W1 W2 W3.
    rewrite W1, W2, W3 in Hp. by destruct Hp as [?|[?|?]].
  - rewrite Hrun. split; [by intros []|].
    split; [|apply config_files_nonempty]. intros _ _ _. split.
    + intros Hh Ht.
      destruct Hempty as [Hin|Hin]; apply not_all_nonempty in Hin; done.
    + intros _. by exists st'.
  - rewrite Hrun. split; [by intros []|].
    split; [|apply config_files_nonempty]. intros _ _ _. split.
    + intros _ _. exists st'. split; [done|]. intros -> ->.
      pose proof (no_config_files_run src_top dist_dir host_out product_out w st
                    W1 W2 W3) as Hst.
      rewrite Hrun in Hst. simpl in Hst. subst st'. simpl.
      rewrite !lookup_insert. repeat case_decide; done.
    + intros [Hin|Hin]; apply not_all_nonempty in Hin; done.
Qed.

Lemma config_archives_never_empty_witness :
  ∃ st',
    no_config_commands (scenario_world []) (initial_state ∅)
    = (Ok [scenario_configs_command; scenario_list_command], st')
    ∧ files st' !! "/top/host_out/host_general-tests_list" = Some ""
    ∧ files st' !! "/top/product_out/target_general-tests_list" = Some ""
    ∧ files st' !! "/top/host_out/general-tests_list" = Some "".
Proof.
  destruct (config_archives_never_empty
              (pathlib.of_str "/top") (pathlib.of_str "/top/out/dist")
              (pathlib.of_str "/top/host_out") (pathlib.of_str "/top/product_out")
              [] [] (scenario_world []) (initial_state ∅))
    as (hs & ts & ls & Hhs & Hts & Hls & _ & Hrun & _).
  destruct (Hrun eq_refl eq_refl eq_refl) as [Hcommands _].
  destruct (Hcommands (Forall_nil_2 _) (Forall_nil_2 _))
    as (st' & Hreturned & Hfiles).
  exists st'. split; [|exact (Hfiles eq_refl eq_refl)].
  injection Hhs as <-. injection Hts as <-. injection Hls as <-.
  exact Hreturned.
Defined.

(** C10 as stated fails for the list archive: its segment is built with no
    list file, the combined list being passed as a member file.  A segment
    built with a list file has the option [-l], and the command of the
    list archive has none. *)
Lemma list_archive_built_without_list_file :
  (no_config_commands (scenario_world []) (initial_state ∅)).1
  = Ok [scenario_configs_command; scenario_list_command]
  ∧ ("-l" ∉ scenario_list_command)
  ∧ ("-f" ∈ scenario_list_command)
  ∧ (∀ prefix relative_root list_files files directories segment,
       truthy list_files = true →
       _generate_zip_options_for_items
         prefix relative_root list_files files directories = Ok segment →
       "-l" ∈ segment).
Proof.
  split; [vm_compute; reflexivity|]. split; [|split].
  - unfold scenario_list_command. intros Hin.
    repeat (apply elem_of_cons in Hin as [Hin|Hin]; [discriminate Hin|]).
    by apply elem_of_nil in Hin.
  - unfold scenario_list_command. do 6 right. left.
  - apply zip_options_list_files_flag.
Qed.

(** ** The order of the archives *)

Lemma Path_of_environ_Ok name w st p st' :
  (environ_get name ≫= Path_of) w st = (Ok p, st') →
  ∃ v, environ w !! name = Some v ∧ p = pathlib.of_str v.
Proof.
  rewrite bind_run. unfold environ_get, ask, Path_of.
  destruct (environ w !! name) as [v|]; simpl; [|done].
  intros [= <- _]. by exists v.
Qed.

Lemma config_commands_Ok src_top dist_dir host_out product_out
    host_config_files target_config_files w st commands st' :
  GeneralTestsOptimizer._get_zip_test_configs_zips_commands
    src_top dist_dir host_out product_out
    host_config_files target_config_files w st = (Ok commands, st') →
  ∃ configs_rest list_rest,
    commands
    = [ _base_zip_command src_top dist_dir "general-tests_configs.zip"
          ++ configs_rest;
        _base_zip_command src_top dist_dir "general-tests_list.zip"
          ++ list_rest ].
Proof.
  intros Hrun.
  destruct (zip_options_list_file_built "host" (pathlib.str host_out)
              (GeneralTestsOptimizer.host_list_path host_out)) as [hs Hhs].
  destruct (zip_options_list_file_built "target" (pathlib.str product_out)
              (GeneralTestsOptimizer.target_list_path product_out)) as [ts Hts].
  destruct (zip_options_file_built "" (pathlib.str host_out)
              (GeneralTestsOptimizer.list_path host_out)) as [ls Hls].
  destruct (config_commands_run src_top dist_dir host_out product_out
              host_config_files target_config_files w st hs ts ls Hhs Hts Hls)
    as [(p & st1 & Hraise & _)|[(st1 & Hraise & _)|(st1 & Hok & _)]].
  - by rewrite Hrun in Hraise.
  - by rewrite Hrun in Hraise.
  - rewrite Hrun in Hok. injection Hok as -> _. by exists (hs ++ ts), ls.
Qed.

Lemma output_archive_base src_top dist_dir name rest :
  output_archive (_base_zip_command src_top dist_dir name ++ rest)
  = Some (pathlib.str (dist_dir // name)).
Proof. reflexivity. Qed.

(** The optional segment of the primary archive: the command keeps what it
    had and may get a segment at its end. *)
Lemma optional_segment_Ok (outputs : list string) (zip_command : list string)
    prefix relative_root list_file w st zip_command' st' :
  match outputs with
  | [] => mret zip_command
  | _ =>
      segment ← lift (_generate_zip_options_for_items
                        prefix relative_root (Some [list_file]) None None);
      mret (zip_command ++ segment)
  end w st = (Ok zip_command', st') →
  ∃ segment, zip_command' = zip_command ++ segment.
Proof.
  destruct outputs as [|o os].
  - intros [= <- _]. exists []. by rewrite (right_id_L [] (++)).
  - intros (segment & st1 & _ & [= <- _])%bind_Ok. by exists segment.
Qed.

(** C8: the list [get_package_outputs_commands_impl] returns has three
    commands: the one that writes [general-tests_configs.zip], the one that
    writes [general-tests_list.zip], and last the one that writes
    [general-tests.zip]. *)
Theorem config_archives_before_primary self w st commands st' :
  GeneralTestsOptimizer.get_package_outputs_commands_impl self w st
  = (Ok commands, st') →
  ∃ dist configs lst primary,
    environ w !! "DIST_DIR" = Some dist
    ∧ commands = [configs; lst; primary]
    ∧ output_archive configs
      = Some (pathlib.str (pathlib.of_str dist // "general-tests_configs.zip"))
    ∧ output_archive lst
      = Some (pathlib.str (pathlib.of_str dist // "general-tests_list.zip"))
    ∧ output_archive primary
      = Some (pathlib.str (pathlib.of_str dist // "general-tests.zip"))
    ∧ last commands = Some primary.
Proof.
  unfold GeneralTestsOptimizer.get_package_outputs_commands_impl.
  intros (src_top & s1 & _ & H)%bind_Ok.
  apply bind_Ok in H as (dist_dir & s2 & Hdist & H).
  apply Path_of_environ_Ok in Hdist as (dist & Hdist & ->).
  apply bind_Ok in H as (tmp_dir & s3 & _ & H).
  apply bind_Ok in H as (modules & s4 & _ & H).
  apply bind_Ok in H as (_ & s5 & _ & H).
  apply bind_Ok in H as (host_files & s6 & _ & H).
  apply bind_Ok in H as (target_files & s7 & _ & H).
  apply bind_Ok in H as (_ & s8 & _ & H).
  apply bind_Ok in H as (_ & s9 & _ & H).
  apply bind_Ok in H as (_ & s10 & _ & H).
  apply bind_Ok in H as (_ & s11 & _ & H).
  apply bind_Ok in H as (_ & s12 & _ & H).
  apply bind_Ok in H as (_ & s13 & _ & H).
  apply bind_Ok in H as (soong_vars & s14 & _ & H).
  apply bind_Ok in H as (product_out & s15 & _ & H).
  apply bind_Ok in H as (soong_host_out & s16 & _ & H).
  apply bind_Ok in H as (host_out & s17 & _ & H).
  apply bind_Ok in H as (config_commands & s18 & Hconfig & H).
  apply config_commands_Ok in Hconfig as (configs_rest & list_rest & ->).
  apply bind_Ok in H as (zip_command1 & s19 & Hhost & H).
  apply optional_segment_Ok in Hhost as (host_segment & ->).
  apply bind_Ok in H as (zip_command2 & s20 & Htarget & H).
  apply optional_segment_Ok in Htarget as (target_segment & ->).
  apply bind_Ok in H as (tools_segment & s21 & _ & H).
  injection H as <- _.
  eexists dist, _, _, _. split; [done|]. split; [reflexivity|].
  do 2 (split; [apply output_archive_base|]). split; [|done].
  rewrite <- !(assoc_L (++)). apply output_archive_base.
Qed.


Lemma config_archives_before_primary_witness :
  (GeneralTestsOptimizer.get_package_outputs_commands_impl
     optimized (scenario_world ["m1"]) scenario_selected).1
  = Ok [scenario_configs_command; scenario_list_command; scenario_primary_command]
  ∧ ∃ dist configs lst primary,
      environ (scenario_world ["m1"]) !! "DIST_DIR" = Some dist
      ∧ [scenario_configs_command; scenario_list_command; scenario_primary_command]
        = [configs; lst; primary]
      ∧ output_archive configs
        = Some (pathlib.str (pathlib.of_str dist // "general-tests_configs.zip"))
      ∧ output_archive lst
        = Some (pathlib.str (pathlib.of_str dist // "general-tests_list.zip"))
      ∧ output_archive primary
        = Some (pathlib.str (pathlib.of_str dist // "general-tests.zip"))
      ∧ last [scenario_configs_command; scenario_list_command;
              scenario_primary_command] = Some primary.
Proof.
  assert ((GeneralTestsOptimizer.get_package_outputs_commands_impl
             optimized (scenario_world ["m1"]) scenario_selected).1
          = Ok [scenario_configs_command; scenario_list_command;
                scenario_primary_command])
    as Hrun by (vm_compute; reflexivity).
  exact (conj Hrun (config_archives_before_primary _ _ _ _ _ (run_eq _ _ Hrun))).
Defined.

(** * Further properties *)

(** ** More on selection *)

Lemma select_module_fold_outputs outputs (l : list string) acc x :
  x ∈ (foldl (GeneralTestsOptimizer.select_module outputs) acc l).2
  ↔ x ∈ acc.2
    ∨ (x ∈ outputs ∧ ∃ m, m ∈ l ∧ Str.contains m x = true).
Proof.
  revert acc. induction l as [|m0 l IH]; intros acc; simpl.
  - split; [by left|]. intros [?|(_ & m & Hin & _)]; [done|].
    by apply elem_of_nil in Hin.
  - rewrite IH. unfold GeneralTestsOptimizer.select_module at 1.
    destruct (GeneralTestsOptimizer.module_outputs outputs m0) as [|o os] eqn:Hm0;
      simpl.
    + split.
      * intros [?|(Hx & m & Hm & Hc)]; [by left|].
        right. split; [done|]. exists m. split; [by right|done].
      * intros [?|(Hx & m & Hm & Hc)]; [by left|].
        apply elem_of_cons in Hm as [->|Hm].
        -- assert (x ∈ GeneralTestsOptimizer.module_outputs outputs m0) as Hin.
           { apply list_elem_of_filter. split; [by apply Is_true_true|done]. }
           rewrite Hm0 in Hin. by apply elem_of_nil in Hin.
        -- right. split; [done|]. by exists m.
    + rewrite elem_of_app, <- Hm0. unfold GeneralTestsOptimizer.module_outputs.
      rewrite list_elem_of_filter, Is_true_true. split.
      * intros [[?|[Hc Hx]]|(Hx & m & Hm & Hc)].
        -- by left.
        -- right. split; [done|]. exists m0. split; [left|done].
        -- right. split; [done|]. exists m. split; [by right|done].
      * intros [?|(Hx & m & Hm & Hc)]; [by left; left|].
        apply elem_of_cons in Hm as [->|Hm]; [by left; right|].
        right. split; [done|]. by exists m.
Qed.

(** X1: what the loop of [get_build_targets_impl] leaves behind, whatever
    the order in which the set of discovered modules is walked.  A module
    is selected when it is required, or discovered and a substring of some
    line of the catalog; a line is recorded in [_build_outputs] when it
    contains some discovered module. *)
Theorem selection_characterised outputs test_modules :
  (∀ m, m ∈ (GeneralTestsOptimizer.select_modules outputs test_modules).1
        ↔ m ∈ GeneralTestsOptimizer._REQUIRED_MODULES
          ∨ (m ∈ test_modules
             ∧ ∃ output, output ∈ outputs ∧ Str.contains m output = true))
  ∧ (∀ x, x ∈ (GeneralTestsOptimizer.select_modules outputs test_modules).2
          ↔ x ∈ outputs
            ∧ ∃ m, m ∈ test_modules ∧ Str.contains m x = true).
Proof.
  split; [intros m; apply select_modules_spec|]. intros x.
  unfold GeneralTestsOptimizer.select_modules.
  rewrite select_module_fold_outputs. simpl. split.
  - intros [Hnil|(Hx & m & Hm & Hc)]; [by apply elem_of_nil in Hnil|].
    split; [done|]. exists m. by rewrite <- elem_of_elements.
  - intros (Hx & m & Hm & Hc). right. split; [done|]. exists m.
    by rewrite elem_of_elements.
Qed.

(** X2: selection is monotonic.  More lines in the catalog or more
    discovered modules never remove a module from the selection. *)
Theorem selection_monotonic outputs outputs' (test_modules test_modules' : gset string) :
  outputs ⊆ outputs' →
  test_modules ⊆ test_modules' →
  (GeneralTestsOptimizer.select_modules outputs test_modules).1
  ⊆ (GeneralTestsOptimizer.select_modules outputs' test_modules').1.
Proof.
  intros Houts Hmods m. rewrite !select_modules_spec.
  intros [?|(Hm & output & Hin & Hc)]; [by left|]. right.
  split; [by apply Hmods|]. exists output. split; [by apply Houts|done].
Qed.

Lemma selection_monotonic_witness :
  (GeneralTestsOptimizer.select_modules ["a/m1/x"] {[ "m1" ]}).1
  ⊆ (GeneralTestsOptimizer.select_modules ["a/m1/x"; "a/m2/y"] {[ "m1"; "m2" ]}).1.
Proof.
  apply selection_monotonic.
  - intros x Hx. apply list_elem_of_singleton in Hx as ->. left.
  - apply union_subseteq_l.
Defined.

Section respects.
Context (R : relation State) `{!PreOrder R}.

Lemma respects_ret {A} (a : A) : respects R (mret a).
Proof. by intros w st r st' [= _ <-]. Qed.

Lemma respects_bind {A B} (m : M A) (f : A → M B) :
  respects R m → (∀ a, respects R (f a)) → respects R (m ≫= f).
Proof.
  intros Hm Hf w st r st'. rewrite bind_run.
  destruct (m w st) as [[a|e] st1] eqn:Hrun.
  - intros Hrest. etrans; [by eapply Hm|by eapply Hf].
  - intros [= _ <-]. by eapply Hm.
Qed.

Lemma respects_raise {A} e : respects R (@raise A e).
Proof. by intros w st r st' [= _ <-]. Qed.

Lemma respects_lift {A} (x : res A) : respects R (lift x).
Proof. by intros w st r st' [= _ <-]. Qed.

Lemma respects_ask {A} (f : World → A) : respects R (ask f).
Proof. by intros w st r st' [= _ <-]. Qed.

Lemma respects_call {A} (f : World → res A) : respects R (call f).
Proof. by intros w st r st' [= _ <-]. Qed.

Lemma respects_attribute {A} name (f : State → option A) :
  respects R (attribute name f).
Proof. intros w st r st'. unfold attribute. by destruct (f st); intros [= _ <-]. Qed.

Lemma respects_open_readlines p : respects R (open_readlines p).
Proof.
  intros w st r st'. unfold open_readlines.
  by destruct (files st !! p); intros [= _ <-].
Qed.

Lemma respects_modify (f : State → State) :
  (∀ st, R st (f st)) → respects R (modify f).
Proof. intros Hf w st r st' [= _ <-]. apply Hf. Qed.

Lemma respects_try_except {A} (body : M A) handler :
  respects R body → (∀ e, respects R (handler e)) →
  respects R (try_except body handler).
Proof.
  intros Hb Hh w st r st'. unfold try_except.
  destruct (body w st) as [[a|e] st1] eqn:Hrun.
  - intros [= _ <-]. by eapply Hb.
  - intros Hrest. etrans; [by eapply Hb|by eapply Hh].
Qed.

Lemma respects_for_fold {A S} (l : list A) (acc : S) (body : S → A → M S) :
  (∀ acc x, respects R (body acc x)) → respects R (for_fold l acc body).
Proof.
  intros Hb. revert acc. induction l as [|x l IH]; intros acc; simpl.
  - apply respects_ret.
  - apply respects_bind; [apply Hb|apply IH].
Qed.

End respects.

Global Instance same_files_preorder : PreOrder same_files.
Proof.
  split; [by intros st|]. intros s1 s2 s3 H12 H23. unfold same_files in *.
  by rewrite H23.
Qed.

Ltac respects_step :=
  first
    [ apply respects_bind; [apply _| |intros ?]
    | apply respects_ret; apply _ | apply respects_raise; apply _
    | apply respects_lift; apply _ | apply respects_ask; apply _
    | apply respects_call; apply _ | apply respects_attribute; apply _
    | apply respects_open_readlines; apply _
    | apply respects_modify; intros ?; reflexivity
    | apply respects_try_except; [apply _| |intros ?]
    | apply respects_for_fold; [apply _|intros ? ?]
    | match goal with
      | |- respects _ (if ?b then _ else _) => destruct b
      | |- respects _ (match ?x with _ => _ end) => destruct x
      | |- respects _ (let '(_, _) := ?x in _) => destruct x
      end ].

Lemma same_files_get_build_targets_impl self :
  respects same_files (GeneralTestsOptimizer.get_build_targets_impl self).
Proof.
  unfold GeneralTestsOptimizer.get_build_targets_impl,
    GeneralTestsOptimizer._get_general_tests_outputs,
    GeneralTestsOptimizer._get_test_discovery_modules,
    GeneralTestsOptimizer.src_top_of_environ, environ_get, Path_of,
    ChangeInfo_init, _query_soong_vars, emit.
  repeat respects_step.
Qed.

(** X3: selecting the build targets reads files and writes none: after
    [get_build_targets], with the flag or without it, returned or raised,
    the files are as they were. *)
Theorem get_build_targets_writes_no_file self w st r st' :
  GeneralTestsOptimizer.get_build_targets self w st = (r, st') →
  files st' = files st.
Proof.
  revert w st r st'.
  change (respects same_files (GeneralTestsOptimizer.get_build_targets self)).
  pose proof (same_files_get_build_targets_impl self) as Himpl.
  unfold GeneralTestsOptimizer.get_build_targets, get_build_targets,
    _report_info_metrics_silently, report_info_metrics, emit.
  simpl. repeat respects_step; apply Himpl.
Qed.

Lemma get_build_targets_writes_no_file_witness :
  files (GeneralTestsOptimizer.get_build_targets
           optimized (scenario_world ["m1"]) (initial_state scenario_files)).2
  = scenario_files.
Proof.
  exact (get_build_targets_writes_no_file optimized (scenario_world ["m1"])
           (initial_state scenario_files) _ _ (run_eq _ _ eq_refl)).
Defined.

(** X4: the set [get_build_targets] returns is the one it leaves in
    [self.modules_to_build], for every subclass and on both paths, so the
    packaging step that follows reads the selection that was built. *)
Theorem get_build_targets_records_selection `{Methods} self w st modules st' :
  get_build_targets self w st = (Ok modules, st') →
  modules_to_build st' = Some modules.
Proof.
  unfold get_build_targets.
  intros (flag & s1 & _ & Hrest)%bind_Ok.
  destruct (bool_decide (flag ∈ enabled_build_features self)).
  - apply bind_Ok in Hrest as (selected & s2 & _ & Hrest).
    apply bind_Ok in Hrest as (u & s3 & Hset & Hret).
    injection Hset as Hset. subst. unfold mret, M_ret in Hret.
    by injection Hret as <- <-.
  - apply bind_Ok in Hrest as (_ & s2 & _ & Hrest).
    apply bind_Ok in Hrest as (u & s3 & Hset & Hret).
    injection Hset as Hset. subst. unfold mret, M_ret in Hret.
    by injection Hret as <- <-.
Qed.

Lemma get_build_targets_records_selection_witness :
  modules_to_build
    (GeneralTestsOptimizer.get_build_targets
       optimized (scenario_world ["m1"]) (initial_state scenario_files)).2
  = Some ({[ "m1" ]} ∪ GeneralTestsOptimizer._REQUIRED_MODULES).
Proof.
  assert ((GeneralTestsOptimizer.get_build_targets
             optimized (scenario_world ["m1"]) (initial_state scenario_files)).1
          = Ok ({[ "m1" ]} ∪ GeneralTestsOptimizer._REQUIRED_MODULES))
    as Hrun by (vm_compute; reflexivity).
  exact (@get_build_targets_records_selection GeneralTestsOptimizer.methods
           _ _ _ _ _ (run_eq _ _ Hrun)).
Defined.

(** X5: packaging stops before any side effect when it cannot start: with
    [DIST_DIR] or [TMPDIR] missing from the environment it raises a
    [TypeError], and when no selection was made on this object it raises an
    [AttributeError] for [modules_to_build]; the state is untouched. *)
Theorem packaging_needs_environment_and_selection self w st :
  (environ w !! "DIST_DIR" = None →
   ∃ msg, GeneralTestsOptimizer.get_package_outputs_commands_impl self w st
          = (Raise (TypeError msg), st))
  ∧ (is_Some (environ w !! "DIST_DIR") → environ w !! "TMPDIR" = None →
     ∃ msg, GeneralTestsOptimizer.get_package_outputs_commands_impl self w st
            = (Raise (TypeError msg), st))
  ∧ (is_Some (environ w !! "DIST_DIR") → is_Some (environ w !! "TMPDIR") →
     modules_to_build st = None →
     GeneralTestsOptimizer.get_package_outputs_commands_impl self w st
     = (Raise (AttributeError "modules_to_build"), st)).
Proof.
  unfold GeneralTestsOptimizer.get_package_outputs_commands_impl,
    GeneralTestsOptimizer.src_top_of_environ, environ_get, Path_of, ask, lift,
    attribute, mbind, M_bind, mret, M_ret.
  cbv beta iota zeta. repeat split.
  - intros Hdist. rewrite Hdist. by eexists.
  - intros [dist Hdist] Htmp. rewrite Hdist, Htmp. by eexists.
  - intros [dist Hdist] [tmp Htmp] Hunset. rewrite Hdist, Htmp. simpl.
    by rewrite Hunset.
Qed.

Lemma packaging_needs_environment_and_selection_witness :
  GeneralTestsOptimizer.get_package_outputs_commands_impl
    optimized (scenario_world ["m1"]) (initial_state scenario_files)
  = (Raise (AttributeError "modules_to_build"), initial_state scenario_files).
Proof.
  apply (packaging_needs_environment_and_selection optimized
           (scenario_world ["m1"]) (initial_state scenario_files)).
  - by eexists.
  - by eexists.
  - reflexivity.
Defined.

(** X6: [_report_info_metrics_silently] never raises, for any subclass
    and whatever [get_build_targets_impl] and the metrics agent do. *)
Theorem report_info_metrics_silently_returns `{Methods} self artifact_name w st :
  ∃ st', _report_info_metrics_silently self artifact_name w st = (Ok (), st').
Proof.
  unfold _report_info_metrics_silently, try_except.
  destruct (report_info_metrics self artifact_name w st) as [[[]|e] st1];
    by eexists.
Qed.

(** X7: with no test info, a successful [get_build_targets_impl] selects
    the required modules and nothing else, and records no build output. *)
Theorem no_test_info_selects_required self w st modules st' :
  test_infos self = [] →
  GeneralTestsOptimizer.get_build_targets_impl self w st = (Ok modules, st') →
  modules = GeneralTestsOptimizer._REQUIRED_MODULES
  ∧ _build_outputs st' = Some [].
Proof.
  intros Hnone. unfold GeneralTestsOptimizer.get_build_targets_impl.
  intros (outputs & s1 & _ & Hrest)%bind_Ok.
  apply bind_Ok in Hrest as (_ & s2 & _ & Hrest).
  apply bind_Ok in Hrest as (test_modules & s3 & Hdisc & Hrest).
  assert (test_modules = ∅) as ->.
  { unfold GeneralTestsOptimizer._get_test_discovery_modules in Hdisc.
    rewrite Hnone in Hdisc.
    apply bind_Ok in Hdisc as (f & s4 & _ & Hdisc).
    apply bind_Ok in Hdisc as (ci & s5 & _ & Hdisc).
    apply bind_Ok in Hdisc as (paths & s6 & _ & Hdisc).
    by injection Hdisc as <- _. }
  unfold GeneralTestsOptimizer.select_modules in Hrest.
  rewrite elements_empty in Hrest. simpl in Hrest.
  apply bind_Ok in Hrest as (u & s4 & Hset & Hret).
  injection Hset as Hset. subst. unfold mret, M_ret in Hret.
    by injection Hret as <- <-.
Qed.

Lemma no_test_info_selects_required_witness :
  (GeneralTestsOptimizer.get_build_targets_impl
     optimized_without_tests (scenario_world ["m1"])
     (initial_state scenario_files)).1
  = Ok GeneralTestsOptimizer._REQUIRED_MODULES
  ∧ _build_outputs
      (GeneralTestsOptimizer.get_build_targets_impl
         optimized_without_tests (scenario_world ["m1"])
         (initial_state scenario_files)).2
    = Some [].
Proof.
  assert ((GeneralTestsOptimizer.get_build_targets_impl
             optimized_without_tests (scenario_world ["m1"])
             (initial_state scenario_files)).1
          = Ok GeneralTestsOptimizer._REQUIRED_MODULES)
    as Hrun by (vm_compute; reflexivity).
  exact (conj Hrun
           (proj2 (no_test_info_selects_required optimized_without_tests
                     _ _ _ _ eq_refl (run_eq _ _ Hrun)))).
Defined.

(** ** Discovery *)

Lemma add_all_elem (acc : gset string) (ms : list string) m :
  m ∈ foldl (λ (s : gset string) regex, {[ regex ]} ∪ s) acc ms
  ↔ m ∈ acc ∨ m ∈ ms.
Proof.
  revert acc. induction ms as [|x ms IH]; intros acc; simpl.
  - split; [by left|]. intros [?|Hin]; [done|]. by apply elem_of_nil in Hin.
  - rewrite IH, elem_of_union, elem_of_singleton, elem_of_cons. tauto.
Qed.

Lemma ChangeInfo_init_Ok file w st change_info st' :
  ChangeInfo_init file w st = (Ok change_info, st') →
  json_load w file = Ok change_info ∧ st' = add_event (LoadChangeInfo file) st.
Proof.
  unfold ChangeInfo_init. rewrite bind_run. simpl. unfold try_except, call.
  destruct (json_load w file) as [ci|[]]; try done. by intros [= <- <-].
Qed.

Lemma discovery_loop w change_paths dist test_infos acc st modules st' :
  environ w !! "DIST_DIR" = Some dist →
  for_fold test_infos acc (λ test_modules test_info,
    env ← ask environ;
    let tf_command :=
      GeneralTestsOptimizer._build_tf_command env test_info change_paths in
    dist ← lift (not_none "unsupported operand type(s) for +: 'NoneType' and 'str'"
                   (env !! "DIST_DIR"));
    let zip_path := dist +:+ "/test_mappings.zip" in
    emit (Discover tf_command zip_path);;
    '(modules, dependencies) ←
      call (λ w, discover_test_mapping_test_modules w tf_command zip_path);
    mret (foldl (λ (s : gset string) regex, {[ regex ]} ∪ s) test_modules modules))
    w st = (Ok modules, st') →
  trace st'
  = trace st
    ++ ((λ test_info,
           Discover (GeneralTestsOptimizer._build_tf_command
                       (environ w) test_info change_paths)
                    (dist +:+ "/test_mappings.zip")) <$> test_infos)
  ∧ ∀ m, m ∈ modules
         ↔ m ∈ acc
           ∨ ∃ test_info found dependencies,
               test_info ∈ test_infos
               ∧ discover_test_mapping_test_modules w
                   (GeneralTestsOptimizer._build_tf_command
                      (environ w) test_info change_paths)
                   (dist +:+ "/test_mappings.zip")
                 = Ok (found, dependencies)
               ∧ m ∈ found.
Proof.
  intros Hdist. revert acc st.
  induction test_infos as [|ti tis IH]; intros acc st; cbn [for_fold].
  - intros [= <- <-]. split; [by rewrite fmap_nil, app_nil_r|].
    intros m. split; [by left|]. intros [?|(ti & ? & ? & Hin & _)]; [done|].
    by apply elem_of_nil in Hin.
  - intros (acc' & s1 & Hbody & Hrest)%bind_Ok.
    apply IH in Hrest as [Htrace Hmods].
    apply bind_Ok in Hbody as (env & s2 & [= <- <-] & Hbody).
    rewrite Hdist in Hbody.
    apply bind_Ok in Hbody as (d & s3 & [= <- <-] & Hbody).
    apply bind_Ok in Hbody as (u & s4 & [= <-] & Hbody).
    apply bind_Ok in Hbody as ([found deps] & s5 & Hcall & [= <- <-]).
    unfold call in Hcall. injection Hcall as Hcall <-. subst.
    split.
    + rewrite Htrace, fmap_cons. cbn [trace add_event].
      by rewrite <- (assoc_L (++)).
    + intros m. rewrite Hmods, add_all_elem. split.
      * intros [[?|Hfound]|(ti' & f' & d' & Hin & Hd & Hm)]; [by left| |].
        -- right. exists ti, found, deps. split; [left|done].
        -- right. exists ti', f', d'. split; [by right|done].
      * intros [?|(ti' & f' & d' & Hin & Hd & Hm)]; [by left; left|].
        apply elem_of_cons in Hin as [->|Hin].
        -- left. right. rewrite Hcall in Hd. by injection Hd as <- _.
        -- right. by exists ti', f', d'.
Qed.

(** X8: a successful [_get_test_discovery_modules] has loaded the change
    description once and then queried the discovery agent once for every
    test info, in their order, each time with the command built from that
    test info and with [DIST_DIR/test_mappings.zip]; the set it returns is
    the union of the modules of all the answers.  The commands are given
    up to the order in which the set of changed paths is walked: [paths]
    is some walk of that set, each changed path once. *)
Theorem discovery_once_per_test_info self w st modules st' dist :
  environ w !! "DIST_DIR" = Some dist →
  GeneralTestsOptimizer._get_test_discovery_modules self w st = (Ok modules, st') →
  ∃ change_info change_paths paths,
    json_load w (environ w !! "CHANGE_INFO") = Ok change_info
    ∧ get_changed_paths change_info = Ok change_paths
    ∧ paths ≡ₚ elements change_paths
    ∧ trace st'
      = trace st
        ++ LoadChangeInfo (environ w !! "CHANGE_INFO")
           :: ((λ test_info,
                  Discover (tf_command_in_order (environ w) test_info paths)
                           (dist +:+ "/test_mappings.zip")) <$> test_infos self)
    ∧ ∀ m, m ∈ modules
           ↔ ∃ test_info found dependencies,
               test_info ∈ test_infos self
               ∧ discover_test_mapping_test_modules w
                   (tf_command_in_order (environ w) test_info paths)
                   (dist +:+ "/test_mappings.zip")
                 = Ok (found, dependencies)
               ∧ m ∈ found.
Proof.
  intros Hdist. unfold GeneralTestsOptimizer._get_test_discovery_modules.
  intros (file & s1 & [= <- <-] & Hrest)%bind_Ok.
  apply bind_Ok in Hrest as (change_info & s2 & Hload & Hrest).
  apply ChangeInfo_init_Ok in Hload as [Hload ->].
  apply bind_Ok in Hrest as (change_paths & s3 & Hpaths & Hrest).
  unfold lift in Hpaths. injection Hpaths as Hpaths <-.
  exists change_info, change_paths, (elements change_paths).
  do 3 (split; [done|]).
  destruct (discovery_loop _ _ _ _ _ _ _ _ Hdist Hrest) as [Htrace Hmods].
  split.
  - rewrite Htrace. cbn [trace add_event]. by rewrite <- (assoc_L (++)).
  - intros m. rewrite Hmods. split; [|by right].
    intros [Hin|?]; [|done]. by apply not_elem_of_empty in Hin.
Qed.

Lemma discovery_once_per_test_info_witness :
  ∃ change_info change_paths paths,
    json_load (scenario_world ["m1"]) (environ (scenario_world ["m1"]) !! "CHANGE_INFO")
    = Ok change_info
    ∧ get_changed_paths change_info = Ok change_paths
    ∧ paths ≡ₚ elements change_paths
    ∧ trace (GeneralTestsOptimizer._get_test_discovery_modules
               optimized (scenario_world ["m1"]) (initial_state scenario_files)).2
      = trace (initial_state scenario_files)
        ++ LoadChangeInfo (environ (scenario_world ["m1"]) !! "CHANGE_INFO")
           :: ((λ test_info,
                  Discover (tf_command_in_order
                              (environ (scenario_world ["m1"])) test_info paths)
                           ("/top/out/dist" +:+ "/test_mappings.zip"))
                 <$> test_infos optimized)
    ∧ ∀ m, m ∈ ({[ "m1" ]} : gset string)
           ↔ ∃ test_info found dependencies,
               test_info ∈ test_infos optimized
               ∧ discover_test_mapping_test_modules (scenario_world ["m1"])
                   (tf_command_in_order
                      (environ (scenario_world ["m1"])) test_info paths)
                   ("/top/out/dist" +:+ "/test_mappings.zip")
                 = Ok (found, dependencies)
               ∧ m ∈ found.
Proof.
  assert ((GeneralTestsOptimizer._get_test_discovery_modules
             optimized (scenario_world ["m1"]) (initial_state scenario_files)).1
          = Ok {[ "m1" ]})
    as Hrun by (vm_compute; reflexivity).
  apply (discovery_once_per_test_info optimized (scenario_world ["m1"])
           (initial_state scenario_files) _ _ "/top/out/dist").
  - vm_compute; reflexivity.
  - exact (run_eq _ _ Hrun).
Defined.

(** X9: [ChangeInfo.__init__] raises what loading the document raised.  A
    document that is not JSON leaves one line in the error log before the
    exception goes on; any other failure leaves none. *)
Theorem change_info_load_failure_raised_again file w st e :
  json_load w file = Raise e →
  ∃ st', ChangeInfo_init file w st = (Raise e, st')
         ∧ trace st'
           = trace st
             ++ LoadChangeInfo file
                :: match e with
                   | JSONDecodeError =>
                       [LoggingError ("Failed to load CHANGE_INFO: "
                                      +:+ default "None" file)]
                   | _ => []
                   end.
Proof.
  intros Hload. unfold ChangeInfo_init. rewrite bind_run. simpl.
  unfold try_except, call. rewrite Hload.
  destruct e; simpl; eexists; (split; [reflexivity|]); simpl;
    by rewrite <- ?(assoc_L (++)).
Qed.

Lemma change_info_load_failure_raised_again_witness :
  ∃ st', ChangeInfo_init (Some "/top/change_info") unparsable_world
           (initial_state ∅)
         = (Raise JSONDecodeError, st')
         ∧ trace st'
           = [ LoadChangeInfo (Some "/top/change_info");
               LoggingError "Failed to load CHANGE_INFO: /top/change_info" ].
Proof.
  exact (change_info_load_failure_raised_again (Some "/top/change_info")
           unparsable_world (initial_state ∅) JSONDecodeError eq_refl).
Defined.

(** ** Reading a change description *)

Lemma for_res_Ok_iff {A S} (body : S → A → res S) (ok : A → bool) :
  (∀ acc x, is_Ok (body acc x) ↔ ok x = true) →
  ∀ l acc, is_Ok (for_res l acc body) ↔ forallb ok l = true.
Proof.
  intros Hbody. induction l as [|x l IH]; intros acc; simpl.
  - split; [done|]. intros _. by exists acc.
  - rewrite andb_true_iff, <- (Hbody acc x). split.
    + destruct (body acc x) as [acc'|e] eqn:Hx; [|by intros [? ?]].
      intros Hrest. split; [by exists acc'|]. by apply (IH acc').
    + intros [[acc' Hx] Hrest]. rewrite Hx. by apply IH.
Qed.

Section readable.
Variable item : string → string → string.
Variable file_info_body : string → gset string → FileInfo → res (gset string).
Variable revision_body : string → gset string → Revision → res (gset string).
Variable change_body : gset string → Change → res (gset string).

Hypothesis file_info_body_eq : ∀ project_path acc file_info,
  file_info_body project_path acc file_info
  = (file_path ← not_none "path" (path file_info);
     Ok ({[ item project_path file_path ]} ∪ acc)).
Hypothesis revision_body_eq : ∀ project_path acc revision,
  revision_body project_path acc revision
  = (file_infos ← not_none "fileInfos" (fileInfos revision);
     for_res file_infos acc (file_info_body project_path)).
Hypothesis change_body_eq : ∀ acc change,
  change_body acc change
  = (pp ← not_none "projectPath" (projectPath change);
     revs ← not_none "revisions" (revisions change);
     for_res revs acc (revision_body (pp +:+ "/"))).

Lemma file_info_readable project_path acc f :
  is_Ok (file_info_body project_path acc f) ↔ has_path f = true.
Proof.
  rewrite file_info_body_eq. unfold has_path.
  destruct (path f) as [p|]; simpl.
  - split; [done|]. intros _. by eexists.
  - split; [by intros [? ?]|done].
Qed.

Lemma revision_readable project_path acc r :
  is_Ok (revision_body project_path acc r) ↔ has_file_infos r = true.
Proof.
  rewrite revision_body_eq. unfold has_file_infos.
  destruct (fileInfos r) as [fis|]; simpl.
  - apply for_res_Ok_iff. intros. apply file_info_readable.
  - split; [by intros [? ?]|done].
Qed.

Lemma change_readable acc c :
  is_Ok (change_body acc c) ↔ has_revisions c = true.
Proof.
  rewrite change_body_eq. unfold has_revisions.
  destruct (projectPath c) as [pp|]; simpl.
  - destruct (revisions c) as [rs|]; simpl.
    + apply for_res_Ok_iff. intros. apply revision_readable.
    + split; [by intros [? ?]|done].
  - split; [by intros [? ?]|done].
Qed.

Lemma changes_readable ci :
  is_Ok (cs ← subscript_changes ci; for_res cs ∅ change_body)
  ↔ complete ci = true.
Proof.
  unfold subscript_changes, complete. destruct (changes ci) as [cs|]; simpl.
  - apply for_res_Ok_iff. intros. apply change_readable.
  - split; [by intros [? ?]|done].
Qed.
End readable.

(** X10: the two readers of the change description return exactly on the
    documents in which every key they look up is there: [changes], and
    under it every [projectPath], [revisions], [fileInfos] and [path].  A
    missing key is an exception, never an entry passed over, and without
    [changes] it is a [KeyError]. *)
Theorem readers_return_iff_complete ci :
  (is_Ok (get_changed_paths ci) ↔ complete ci = true)
  ∧ (is_Ok (find_changed_files ci) ↔ complete ci = true)
  ∧ (changes ci = None →
     get_changed_paths ci = Raise (KeyError "changes")
     ∧ find_changed_files ci = Raise (KeyError "changes")).
Proof.
  split; [|split].
  - apply (changes_readable (λ pp p, pp +:+ os_path.dirname p)
             get_changed_paths_loops.file_info_body
             get_changed_paths_loops.revision_body
             get_changed_paths_loops.change_body); done.
  - apply (changes_readable (λ pp p, pp +:+ p)
             find_changed_files_loops.file_info_body
             find_changed_files_loops.revision_body
             find_changed_files_loops.change_body); done.
  - intros Hnone. unfold get_changed_paths, find_changed_files, subscript_changes.
    by rewrite Hnone.
Qed.

(** ** What is packaged *)

Lemma in_selected_module_spec modules file :
  GeneralTestsOptimizer.in_selected_module modules file = true
  ↔ ∃ m, m ∈ modules ∧ Str.contains ("/" +:+ m +:+ "/") file = true.
Proof.
  unfold GeneralTestsOptimizer.in_selected_module. rewrite existsb_exists.
  split; intros (m & Hin & Hc); exists m; (split; [|done]).
  - by rewrite <- elem_of_elements, list_elem_of_In.
  - by rewrite <- list_elem_of_In, elem_of_elements.
Qed.

(** X11: which lines of a catalog go into an archive.  A line is taken when
    it has some selected module between two separators, whatever the order
    in which the set of modules is walked; it is prefixed with the source
    root and a separator; and each line is decided on its own, so the order
    and the repeats of the catalog are kept. *)
Theorem packaged_outputs_characterised src_top modules outputs :
  (∀ x, x ∈ GeneralTestsOptimizer.selected_outputs src_top modules outputs
        ↔ ∃ file, file ∈ outputs
                  ∧ x = pathlib.str src_top +:+ "/" +:+ file
                  ∧ ∃ m, m ∈ modules
                         ∧ Str.contains ("/" +:+ m +:+ "/") file = true)
  ∧ (∀ more,
       GeneralTestsOptimizer.selected_outputs src_top modules (outputs ++ more)
       = GeneralTestsOptimizer.selected_outputs src_top modules outputs
         ++ GeneralTestsOptimizer.selected_outputs src_top modules more)
  ∧ length (GeneralTestsOptimizer.selected_outputs src_top modules outputs)
    ≤ length outputs.
Proof.
  unfold GeneralTestsOptimizer.selected_outputs. split; [|split].
  - intros x. rewrite list_elem_of_fmap. split.
    + intros (file & -> & [Hsel Hin]%list_elem_of_filter). exists file.
      split; [done|]. split; [done|].
      by apply in_selected_module_spec, Is_true_true.
    + intros (file & Hin & -> & Hm). exists file. split; [done|].
      apply list_elem_of_filter. split; [|done].
      by apply Is_true_true, in_selected_module_spec.
  - intros more. by rewrite filter_app, fmap_app.
  - rewrite length_fmap. apply length_filter.
Qed.

(** ** The discovery query *)

Lemma flagged_pair_lookup {A} (flag : A) (xs : list A) (g : A → list A) x :
  (∀ y, g y = [flag; y]) → x ∈ xs →
  ∃ i, (xs ≫= g) !! i = Some flag ∧ (xs ≫= g) !! S i = Some x.
Proof.
  intros Hg. induction xs as [|y xs IH]; intros Hin;
    [by apply elem_of_nil in Hin|].
  rewrite bind_cons, Hg. apply elem_of_cons in Hin as [->|Hin].
  - by exists 0.
  - destruct (IH Hin) as (i & Hi & HSi). by exists (S (S i)).
Qed.

(** X12: the command sent to test discovery.  It starts with the command
    of the test info; the changed paths enter it only for a test-mapping
    test, where every one of them stands right after a
    [--test-mapping-path]; and a [build-id] option gives [--build-id]
    followed by the [BUILD_NUMBER] of the environment, the values it
    declares being left out. *)
Theorem tf_command_shape env test_info change_paths :
  head (GeneralTestsOptimizer._build_tf_command env test_info change_paths)
  = Some (Some (command test_info))
  ∧ (is_test_mapping test_info = false →
     GeneralTestsOptimizer._build_tf_command env test_info change_paths
     = GeneralTestsOptimizer._build_tf_command env test_info ∅)
  ∧ (is_test_mapping test_info = true →
     ∀ p, p ∈ change_paths →
          ∃ i, GeneralTestsOptimizer._build_tf_command env test_info change_paths
                 !! i = Some (Some "--test-mapping-path")
               ∧ GeneralTestsOptimizer._build_tf_command env test_info change_paths
                   !! S i = Some (Some p))
  ∧ (∀ declared,
       GeneralTestsOptimizer.extra_option_args env
         {| key := Some "build-id"; values := declared |}
       = [Some "--build-id"; env !! "BUILD_NUMBER"]).
Proof.
  unfold GeneralTestsOptimizer._build_tf_command. split; [done|].
  split; [by intros ->|]. split; [|done]. intros -> p Hp.
  destruct (flagged_pair_lookup (Some "--test-mapping-path")
              (Some <$> elements change_paths)
              (λ y, [Some "--test-mapping-path"; y]) (Some p)) as (i & Hi & HSi).
  { done. }
  { apply list_elem_of_fmap. exists p. by rewrite elem_of_elements. }
  assert (elements change_paths
            ≫= (λ change_path, [Some "--test-mapping-path"; Some change_path])
          = (Some <$> elements change_paths)
              ≫= (λ y, [Some "--test-mapping-path"; y])) as Heq.
  { generalize (elements change_paths). intros l.
    induction l as [|y l IH]; [done|].
    by rewrite fmap_cons, !bind_cons, IH. }
  rewrite Heq.
  set (front := extra_options test_info
                  ≫= GeneralTestsOptimizer.extra_option_args env).
  exists (S (length front) + i). simpl. split.
  - rewrite lookup_app_r by lia. by replace (length front + i - length front) with i by lia.
  - replace (S (length front + i)) with (length front + S i) by lia.
    rewrite lookup_app_r by lia.
    by replace (length front + S i - length front) with (S i) by lia.
Qed.

(** ** The layout of a zip segment *)

Lemma flagged_length flag xs : length (flagged flag xs) = 2 * length xs.
Proof.
  unfold flagged. induction xs as [|x xs IH]; [done|].
  rewrite bind_cons. simpl. rewrite IH. lia.
Qed.

(** X13: the tokens of a segment, in the order the archive tool reads them:
    [-P prefix] and [-C root] when they are not empty, then one [-l] per
    list file, one [-f] per file and one [-D] per directory, each in the
    order given.  A segment has an even number of tokens. *)
Theorem zip_options_layout prefix relative_root list_files files directories
    segment :
  _generate_zip_options_for_items prefix relative_root list_files files directories
  = Ok segment →
  segment
  = (if Str.nonempty prefix then ["-P"; prefix] else [])
    ++ (if Str.nonempty relative_root then ["-C"; relative_root] else [])
    ++ flagged "-l" (items list_files)
    ++ flagged "-f" (items files)
    ++ flagged "-D" (items directories)
  ∧ length segment
    = 2 * ((if Str.nonempty prefix then 1 else 0)
           + (if Str.nonempty relative_root then 1 else 0)
           + length (items list_files) + length (items files)
           + length (items directories)).
Proof.
  intros Hrun.
  assert (segment
          = (if Str.nonempty prefix then ["-P"; prefix] else [])
            ++ (if Str.nonempty relative_root then ["-C"; relative_root] else [])
            ++ flagged "-l" (items list_files)
            ++ flagged "-f" (items files)
            ++ flagged "-D" (items directories)) as ->.
  { unfold _generate_zip_options_for_items in Hrun.
    destruct (negb (truthy list_files) && negb (truthy files)
              && negb (truthy directories)); [done|].
    injection Hrun as <-.
    destruct list_files as [[|l ls]|], files as [[|f fs]|],
      directories as [[|d ds]|], (Str.nonempty prefix),
      (Str.nonempty relative_root); simpl;
      rewrite ?app_nil_r, <- ?(assoc_L (++)); reflexivity. }
  split; [done|]. rewrite !length_app, !flagged_length.
  destruct (Str.nonempty prefix), (Str.nonempty relative_root); simpl; lia.
Qed.

Lemma zip_options_layout_witness :
  ["-P"; "host"; "-C"; "/out/host"; "-l"; "/tmp/host.list"]
  = (if Str.nonempty "host" then ["-P"; "host"] else [])
    ++ (if Str.nonempty "/out/host" then ["-C"; "/out/host"] else [])
    ++ flagged "-l" (items (Some ["/tmp/host.list"]))
    ++ flagged "-f" (items None)
    ++ flagged "-D" (items None)
  ∧ length ["-P"; "host"; "-C"; "/out/host"; "-l"; "/tmp/host.list"]
    = 2 * ((if Str.nonempty "host" then 1 else 0)
           + (if Str.nonempty "/out/host" then 1 else 0)
           + length (items (Some ["/tmp/host.list"]))
           + length (items (@None (list string)))
           + length (items (@None (list string)))).
Proof.
  exact (zip_options_layout "host" "/out/host" (Some ["/tmp/host.list"])
           None None _ eq_refl).
Defined.

(** ** The trace of the configuration query *)

(** X14: one configuration query is one process.  When the process exits
    with a non-zero code its stderr is written to the error log before the
    exception; with code zero nothing is logged, whatever the query then
    returns or raises.  When the process cannot be started the exception
    of [subprocess.run] goes on as it is. *)
Theorem query_soong_vars_trace src_top soong_vars w st :
  let args := dumpvars_args src_top soong_vars in
  let run := _query_soong_vars src_top soong_vars w st in
  (∀ process_result, subprocess_run w args = Ok process_result →
     trace run.2
     = trace st
       ++ SubprocessRun args
          :: (if (returncode process_result =? 0)%Z then []
              else [ LoggingError "soong dumpvars command failed! stderr:";
                     LoggingError (stderr process_result) ]))
  ∧ (∀ e, subprocess_run w args = Raise e →
       run = (Raise e, add_event (SubprocessRun args) st)).
Proof.
  intros args run. subst args run. split.
  - intros process_result Hrun.
    rewrite (query_soong_vars_run _ _ _ _ _ Hrun). cbv zeta.
    destruct (returncode process_result =? 0)%Z; simpl.
    + destruct (negb (Str.nonempty (stdout process_result))); [done|].
      by destruct (dumpvars_dict (stdout process_result)) as [d|[]].
    + by rewrite <- !(assoc_L (++)).
  - intros e Hrun. unfold _query_soong_vars. rewrite bind_run. simpl.
    rewrite bind_run. unfold call at 1. by rewrite Hrun.
Qed.

(** ** Parsing the dumped variables *)

Lemma split_app_sep c k v :
  Str.contains (String c "") k = false →
  Str.split c (k +:+ String c v) = k :: Str.split c v.
Proof.
  induction k as [|a k IH]; intros Hk.
  - change ("" +:+ String c v) with (String c v). simpl.
    by rewrite decide_True.
  - change (String a k +:+ String c v) with (String a (k +:+ String c v)).
    simpl in Hk. apply orb_false_iff in Hk as [Ha Hk].
    destruct (decide (c = a)) as [->|Hne]; [by destruct k|].
    simpl. rewrite decide_False by done. by rewrite IH.
Qed.

Lemma dumpvars_entry_parsed k v rest :
  Str.contains "=" k = false →
  Str.contains "=" v = false →
  dumpvars_entry (k +:+ "=" +:+ v)
  = Ok (k, Str.strip (Str.is_char "'") v)
  ∧ dumpvars_entry (k +:+ "=" +:+ v +:+ "=" +:+ rest)
    = Ok (k, Str.strip (Str.is_char "'") v).
Proof.
  intros Hk Hv. unfold dumpvars_entry. split.
  - change (k +:+ "=" +:+ v) with (k +:+ String "=" v).
    rewrite (split_app_sep "=" k v Hk), (split_without_sep "=" v Hv). done.
  - change (k +:+ "=" +:+ v +:+ "=" +:+ rest)
      with (k +:+ String "=" (v +:+ String "=" rest)).
    rewrite (split_app_sep "=" k _ Hk), (split_app_sep "=" v rest Hv). done.
Qed.

Lemma dumpvars_loop_inserts lines kvs d :
  Forall2 (λ line kv, dumpvars_entry line = Ok kv) lines kvs →
  for_res lines d dumpvars_body
  = Ok (foldl (λ d kv, <[kv.1 := kv.2]> d) d kvs).
Proof.
  intros Hall. revert d. induction Hall as [|line [k v] lines kvs Hline _ IH];
    intros d; simpl; [done|].
  unfold dumpvars_body at 1. rewrite Hline. simpl. apply IH.
Qed.

Lemma foldl_insert_lookup (kvs : list (string * string)) (d : gmap string string) k :
  foldl (λ d kv, <[kv.1 := kv.2]> d) d kvs !! k
  = match list_find (λ kv, kv.1 = k) (reverse kvs) with
    | Some (_, kv) => Some kv.2
    | None => d !! k
    end.
Proof.
  revert d. induction kvs as [|[k0 v0] kvs IH]; intros d; simpl; [done|].
  rewrite IH, reverse_cons. clear IH.
  destruct (list_find (λ kv, kv.1 = k) (reverse kvs)) as [[i kv]|] eqn:Hfind.
  - by rewrite (list_find_app_l _ _ _ _ _ Hfind).
  - rewrite list_find_app_r by done. simpl. case_decide as Hk; simpl in Hk.
    + subst. simpl. by rewrite lookup_insert_eq.
    + simpl. by rewrite lookup_insert_ne.
Qed.

(** X15: how the output of the configuration query is read.  A line
    [NAME=value], with no other ['='], gives [NAME] and the value without
    the quotes around it; a value with an ['='] is cut there.  When every
    line has its ['='], the dict holds for each name the value of the last
    line that names it, and nothing for a name no line has. *)
Theorem dumpvars_parsed :
  (∀ k v rest,
     Str.contains "=" k = false → Str.contains "=" v = false →
     dumpvars_entry (k +:+ "=" +:+ v) = Ok (k, Str.strip (Str.is_char "'") v)
     ∧ dumpvars_entry (k +:+ "=" +:+ v +:+ "=" +:+ rest)
       = Ok (k, Str.strip (Str.is_char "'") v))
  ∧ (∀ out kvs,
       Forall2 (λ line kv, dumpvars_entry line = Ok kv) (dumpvars_lines out) kvs →
       ∃ d, dumpvars_dict out = Ok d
            ∧ ∀ k, d !! k
                   = match list_find (λ kv, kv.1 = k) (reverse kvs) with
                     | Some (_, kv) => Some kv.2
                     | None => None
                     end).
Proof.
  split; [apply dumpvars_entry_parsed|]. intros out kvs Hall.
  unfold dumpvars_dict. rewrite (dumpvars_loop_inserts _ _ _ Hall).
  eexists. split; [done|]. intros k. by rewrite foldl_insert_lookup.
Qed.

Example scenario_dumpvars_parsed :
  dumpvars_dict scenario_dumpvars
  = Ok {[ "PRODUCT_OUT" := "/top/product_out";
          "SOONG_HOST_OUT" := "/top/soong_host_out";
          "HOST_OUT" := "/top/host_out" ]}.
Proof. vm_compute. reflexivity. Qed.

(** ** Directories of nested files *)

Lemma rfind_app_sep c d f :
  Str.contains (String c "") f = false →
  Str.rfind c (d +:+ String c f) = Z.of_nat (String.length d).
Proof.
  intros Hf. induction d as [|a d IH].
  - change ("" +:+ String c f) with (String c f). simpl.
    rewrite (rfind_without c f Hf). simpl. by rewrite decide_True.
  - change (String a d +:+ String c f) with (String a (d +:+ String c f)).
    cbn [Str.rfind String.length]. rewrite IH.
    destruct (Z.leb_spec 0 (Z.of_nat (String.length d))); lia.
Qed.

Lemma substring_app_sep c d f :
  String.substring 0 (String.length d + 1) (d +:+ String c f) = d +:+ String c "".
Proof.
  induction d as [|a d IH].
  - change ("" +:+ String c f) with (String c f). simpl. by destruct f.
  - change (String a d +:+ String c f) with (String a (d +:+ String c f)).
    change (String a d +:+ String c "") with (String a (d +:+ String c "")).
    simpl. by rewrite IH.
Qed.

Lemma endswith_cons p a s :
  Str.endswith p (String a s) = false → Str.endswith p s = false.
Proof. simpl. by case_decide. Qed.

Lemma rstrip_app_sep c d :
  d ≠ "" → Str.endswith (String c "") d = false →
  Str.rstrip (Str.is_char c) (d +:+ String c "") = d.
Proof.
  induction d as [|a d IH]; [done|]. intros _ Hend.
  change (String a d +:+ String c "") with (String a (d +:+ String c "")).
  cbn [Str.rstrip]. destruct d as [|b d].
  - change ("" +:+ String c "") with (String c ""). simpl.
    unfold Str.is_char. rewrite decide_True by done.
    simpl in Hend. destruct (decide (String c "" = String a "")) as [Heq|Hne];
      [done|].
    destruct (decide (a = c)) as [->|?]; [done|done].
  - rewrite IH; [done|done|by eapply endswith_cons].
Qed.

Lemma not_all_sep c d :
  d ≠ "" → Str.endswith (String c "") d = false →
  d +:+ String c "" ≠ Str.repeat c (String.length (d +:+ String c "")).
Proof.
  induction d as [|a d IH]; [done|]. intros _ Hend.
  change (String a d +:+ String c "") with (String a (d +:+ String c "")).
  cbn [String.length Str.repeat]. intros [= -> Heq].
  destruct d as [|b d].
  - simpl in Hend. by rewrite decide_True in Hend.
  - apply IH in Heq; [done|done|by eapply endswith_cons].
Qed.

Lemma dirname_nested_file d f :
  d ≠ "" → Str.endswith "/" d = false → Str.contains "/" f = false →
  os_path.dirname (d +:+ "/" +:+ f) = d.
Proof.
  intros Hd Hend Hf. unfold os_path.dirname, Str.slice_to.
  change (d +:+ "/" +:+ f) with (d +:+ String "/" f).
  rewrite (rfind_app_sep "/" d f Hf).
  replace (Z.to_nat (Z.of_nat (String.length d) + 1)) with (String.length d + 1)
    by lia.
  rewrite (substring_app_sep "/" d f).
  rewrite bool_decide_eq_false_2 by by apply not_all_sep.
  replace (Str.nonempty (d +:+ "/")) with true by by destruct d.
  simpl. by apply rstrip_app_sep.
Qed.

(** X16: a file one or more directories below its project.  For a sub-path
    [d/f], where [f] has no separator and [d] is not empty and does not
    end with one, the changed directory is [projectPath/d], with no
    separator at its end. *)
Theorem changed_directory_of_nested_file ci dirs pp d f :
  get_changed_paths ci = Ok dirs →
  has_file ci pp (d +:+ "/" +:+ f) →
  d ≠ "" → Str.endswith "/" d = false → Str.contains "/" f = false →
  os_path.dirname (d +:+ "/" +:+ f) = d
  ∧ (pp +:+ "/") +:+ d ∈ dirs.
Proof.
  intros [-> _]%get_changed_paths_collected Hfile Hd Hend Hf.
  pose proof (dirname_nested_file d f Hd Hend Hf) as Hdir. split; [done|].
  apply elem_of_list_to_set, list_elem_of_fmap.
  exists (pp, d +:+ "/" +:+ f). simpl. rewrite Hdir. split; [done|].
  by apply file_entries_has_file.
Qed.

Lemma changed_directory_of_nested_file_witness :
  os_path.dirname ("src" +:+ "/" +:+ "a.py") = "src"
  ∧ ("build/ci" +:+ "/") +:+ "src"
    ∈ ({[ "build/ci/src"; "build/ci/" ]} : gset string).
Proof.
  assert (get_changed_paths scenario_change_info
          = Ok {[ "build/ci/src"; "build/ci/" ]})
    as Hdirs by (vm_compute; reflexivity).
  apply (changed_directory_of_nested_file scenario_change_info _ _ _ _ Hdirs);
    [|done|reflexivity|reflexivity].
  eexists _, _, _, _, _, _. split; [reflexivity|]. split; [left|].
  split; [reflexivity|]. split; [reflexivity|]. split; [left|].
  split; [reflexivity|]. split; [left|reflexivity].
Defined.

(** ** The tools of the primary archive *)

Lemma Path_of_Ok v w st p st' :
  Path_of v w st = (Ok p, st') → ∃ s, v = Some s ∧ p = pathlib.of_str s.
Proof.
  unfold Path_of. rewrite bind_run. unfold lift.
  destruct v as [s|]; simpl; [|done]. intros [= <- _]. by exists s.
Qed.

(** X17: whatever was selected, the primary archive ends with the three
    jars of the test harness, [cts-tradefed], [compatibility-host-util] and
    [vts-tradefed] in this order, each as a member file taken from the
    [framework] directory under the [SOONG_HOST_OUT] the configuration
    query returned, and then with [-sha256]. *)
Theorem primary_archive_has_harness_tools self w st commands st' :
  GeneralTestsOptimizer.get_package_outputs_commands_impl self w st
  = (Ok commands, st') →
  ∃ primary front soong_vars s1 s2 soong_host_out,
    last commands = Some primary
    ∧ _query_soong_vars
        (pathlib.of_str (default (getcwd w) (environ w !! "TOP")))
        ["PRODUCT_OUT"; "SOONG_HOST_OUT"; "HOST_OUT"] w s1
      = (Ok soong_vars, s2)
    ∧ soong_vars !! "SOONG_HOST_OUT" = Some soong_host_out
    ∧ primary
      = front
        ++ [ "-f"; pathlib.str (pathlib.of_str soong_host_out // "framework"
                                // "cts-tradefed.jar");
             "-f"; pathlib.str (pathlib.of_str soong_host_out // "framework"
                                // "compatibility-host-util.jar");
             "-f"; pathlib.str (pathlib.of_str soong_host_out // "framework"
                                // "vts-tradefed.jar");
             "-sha256" ].
Proof.
  unfold GeneralTestsOptimizer.get_package_outputs_commands_impl.
  intros (src_top & s1 & Htop & H)%bind_Ok.
  assert (src_top = pathlib.of_str (default (getcwd w) (environ w !! "TOP")))
    as ->.
  { unfold GeneralTestsOptimizer.src_top_of_environ in Htop.
    apply bind_Ok in Htop as (top & t1 & [= <- <-] & Htop).
    apply bind_Ok in Htop as (cwd & t2 & [= <- <-] & Htop).
    by injection Htop as <- _. }
  apply bind_Ok in H as (dist_dir & s2 & _ & H).
  apply bind_Ok in H as (tmp_dir & s3 & _ & H).
  apply bind_Ok in H as (modules & s4 & _ & H).
  apply bind_Ok in H as (u5 & s5 & _ & H).
  apply bind_Ok in H as (host_files & s6 & _ & H).
  apply bind_Ok in H as (target_files & s7 & _ & H).
  apply bind_Ok in H as (u8 & s8 & _ & H).
  apply bind_Ok in H as (u9 & s9 & _ & H).
  apply bind_Ok in H as (u10 & s10 & _ & H).
  apply bind_Ok in H as (u11 & s11 & _ & H).
  apply bind_Ok in H as (u12 & s12 & _ & H).
  apply bind_Ok in H as (u13 & s13 & _ & H).
  apply bind_Ok in H as (soong_vars & s14 & Hquery & H).
  apply bind_Ok in H as (product_out & s15 & _ & H).
  apply bind_Ok in H as (soong_host_out & s16 & Hsoong & H).
  apply Path_of_Ok in Hsoong as (v & Hv & ->).
  apply bind_Ok in H as (host_out & s17 & _ & H).
  apply bind_Ok in H as (config_commands & s18 & _ & H).
  apply bind_Ok in H as (zip_command1 & s19 & _ & H).
  apply bind_Ok in H as (zip_command2 & s20 & _ & H).
  apply bind_Ok in H as (tools_segment & s21 & Htools & H).
  injection H as <- _.
  unfold lift, _generate_zip_options_for_items in Htools. simpl in Htools.
  injection Htools as <- _.
  exists
    (((zip_command2
       ++ (if Str.nonempty (pathlib.str (pathlib.of_str v // "framework"))
           then ["-P"; "host/tools"; "-C";
                 pathlib.str (pathlib.of_str v // "framework")]
           else ["-P"; "host/tools"])
       ++ [ "-f"; pathlib.str (pathlib.of_str v // "framework"
                               // "cts-tradefed.jar");
            "-f"; pathlib.str (pathlib.of_str v // "framework"
                               // "compatibility-host-util.jar");
            "-f"; pathlib.str (pathlib.of_str v // "framework"
                               // "vts-tradefed.jar") ])
      ++ ["-sha256"])),
    (zip_command2
     ++ (if Str.nonempty (pathlib.str (pathlib.of_str v // "framework"))
         then ["-P"; "host/tools"; "-C";
               pathlib.str (pathlib.of_str v // "framework")]
         else ["-P"; "host/tools"])),
    soong_vars, s13, s14, v.
  split; [by rewrite last_snoc|]. split; [exact Hquery|]. split; [exact Hv|].
  rewrite <- !(assoc_L (++)). reflexivity.
Qed.

Lemma primary_archive_has_harness_tools_witness :
  (GeneralTestsOptimizer.get_package_outputs_commands_impl
     optimized (scenario_world ["m1"]) scenario_selected).1
  = Ok [scenario_configs_command; scenario_list_command; scenario_primary_command]
  ∧ ∃ primary front soong_vars s1 s2 soong_host_out,
      last [scenario_configs_command; scenario_list_command;
            scenario_primary_command] = Some primary
      ∧ _query_soong_vars
          (pathlib.of_str (default (getcwd (scenario_world ["m1"]))
                             (environ (scenario_world ["m1"]) !! "TOP")))
          ["PRODUCT_OUT"; "SOONG_HOST_OUT"; "HOST_OUT"] (scenario_world ["m1"]) s1
        = (Ok soong_vars, s2)
      ∧ soong_vars !! "SOONG_HOST_OUT" = Some soong_host_out
      ∧ primary
        = front
          ++ [ "-f"; pathlib.str (pathlib.of_str soong_host_out // "framework"
                                  // "cts-tradefed.jar");
               "-f"; pathlib.str (pathlib.of_str soong_host_out // "framework"
                                  // "compatibility-host-util.jar");
               "-f"; pathlib.str (pathlib.of_str soong_host_out // "framework"
                                  // "vts-tradefed.jar");
               "-sha256" ].
Proof.
  assert ((GeneralTestsOptimizer.get_package_outputs_commands_impl
             optimized (scenario_world ["m1"]) scenario_selected).1
          = Ok [scenario_configs_command; scenario_list_command;
                scenario_primary_command])
    as Hrun by (vm_compute; reflexivity).
  exact (conj Hrun
           (primary_archive_has_harness_tools _ _ _ _ _ (run_eq _ _ Hrun))).
Defined.

Global Instance same_selection_preorder : PreOrder same_selection.
Proof.
  split; [by intros st|]. intros s1 s2 s3 H12 H23. unfold same_selection in *.
  by rewrite H23.
Qed.

(** ** Failures with the flag enabled *)

(** X18: with the flag enabled nothing is swallowed.  An exception of
    [get_build_targets_impl] is the exception of [get_build_targets], in
    the state the failure left, and [modules_to_build] is not assigned. *)
Theorem selection_failure_propagates self w st e st1 :
  "general_tests_optimized" ∈ enabled_build_features self →
  GeneralTestsOptimizer.get_build_targets_impl self w st = (Raise e, st1) →
  GeneralTestsOptimizer.get_build_targets self w st = (Raise e, st1)
  ∧ modules_to_build st1 = modules_to_build st.
Proof.
  intros Hflag Himpl.
  unfold GeneralTestsOptimizer.get_build_targets, get_build_targets.
  rewrite bind_run. simpl. rewrite bool_decide_eq_true_2 by done.
  rewrite bind_run. simpl. rewrite Himpl. split; [done|].
  clear Hflag. revert Himpl.
  unfold GeneralTestsOptimizer.get_build_targets_impl.
  assert (respects same_selection
            (GeneralTestsOptimizer._get_general_tests_outputs)) as Hout.
  { unfold GeneralTestsOptimizer._get_general_tests_outputs,
      GeneralTestsOptimizer.src_top_of_environ, environ_get, Path_of,
      _query_soong_vars, emit.
    repeat respects_step. }
  assert (respects same_selection
            (GeneralTestsOptimizer._get_test_discovery_modules self)) as Hdisc.
  { unfold GeneralTestsOptimizer._get_test_discovery_modules, environ_get,
      ChangeInfo_init, emit.
    repeat respects_step. }
  rewrite bind_run.
  destruct (GeneralTestsOptimizer._get_general_tests_outputs w st)
    as [[outputs|e1] s1] eqn:H1.
  - apply Hout in H1. rewrite bind_run. simpl. rewrite bind_run.
    destruct (GeneralTestsOptimizer._get_test_discovery_modules self w
                (set_general_tests_outputs outputs s1))
      as [[test_modules|e2] s2] eqn:H2.
    + by destruct (GeneralTestsOptimizer.select_modules outputs test_modules).
    + apply Hdisc in H2. intros [= _ <-]. by rewrite H2.
  - apply Hout in H1. by intros [= _ <-].
Qed.

Lemma selection_failure_propagates_witness :
  GeneralTestsOptimizer.get_build_targets optimized unparsable_world
    (initial_state scenario_files)
  = (Raise JSONDecodeError,
     (GeneralTestsOptimizer.get_build_targets_impl optimized unparsable_world
        (initial_state scenario_files)).2)
  ∧ modules_to_build
      (GeneralTestsOptimizer.get_build_targets_impl optimized unparsable_world
         (initial_state scenario_files)).2
    = modules_to_build (initial_state scenario_files).
Proof.
  assert ((GeneralTestsOptimizer.get_build_targets_impl optimized
             unparsable_world (initial_state scenario_files)).1
          = Raise JSONDecodeError)
    as Hrun by (vm_compute; reflexivity).
  apply (selection_failure_propagates optimized unparsable_world
           (initial_state scenario_files) JSONDecodeError).
  - by vm_compute.
  - exact (run_eq _ _ Hrun).
Defined.

Section raises_only.
Context (w : World) (P : exn → Prop).

Lemma raises_only_ret {A} (a : A) : raises_only w P (mret a).
Proof. by intros st e st'. Qed.

Lemma raises_only_bind {A B} (m : M A) (f : A → M B) :
  raises_only w P m → (∀ a, raises_only w P (f a)) → raises_only w P (m ≫= f).
Proof.
  intros Hm Hf st e st'. rewrite bind_run.
  destruct (m w st) as [[a|e1] st1] eqn:Hrun.
  - by apply Hf.
  - intros [= <- _]. by eapply Hm.
Qed.

Lemma raises_only_raise {A} e : P e → raises_only w P (@raise A e).
Proof. by intros He st e' st' [= <- _]. Qed.

Lemma raises_only_lift {A} (r : res A) :
  (∀ e, r = Raise e → P e) → raises_only w P (lift r).
Proof. intros Hr st e st' [= -> _]. by apply Hr. Qed.

Lemma raises_only_ask {A} (f : World → A) : raises_only w P (ask f).
Proof. by intros st e st'. Qed.

Lemma raises_only_call {A} (f : World → res A) :
  (∀ e, f w = Raise e → P e) → raises_only w P (call f).
Proof. intros Hf st e st' [= Hr _]. by apply Hf. Qed.

Lemma raises_only_modify f : raises_only w P (modify f).
Proof. by intros st e st'. Qed.

Lemma raises_only_attribute {A} name (f : State → option A) :
  P (AttributeError name) → raises_only w P (attribute name f).
Proof.
  intros Hp st e st'. unfold attribute. destruct (f st); [done|].
  by intros [= <- _].
Qed.

Lemma raises_only_open_w p : P (OSError p) → raises_only w P (open_w p).
Proof.
  intros Hp st e st'. unfold open_w. destruct (writable w p); [done|].
  by intros [= <- _].
Qed.

Lemma raises_only_for_each {A} (l : list A) (body : A → M ()) :
  (∀ x, raises_only w P (body x)) → raises_only w P (for_each l body).
Proof.
  intros Hb. induction l as [|x l IH]; simpl.
  - apply raises_only_ret.
  - apply raises_only_bind; [apply Hb|intros _; apply IH].
Qed.

End raises_only.

Lemma query_error_other e :
  (∀ msg, e ≠ RuntimeError msg) → query_error e.
Proof. intros He msg ->. by destruct (He msg). Qed.

Lemma raises_only_query_soong_vars w src_top soong_vars :
  (∀ args msg, subprocess_run w args ≠ Raise (RuntimeError msg)) →
  raises_only w query_error (_query_soong_vars src_top soong_vars).
Proof.
  intros Hrun st e st'.
  destruct (subprocess_run w (dumpvars_args src_top soong_vars))
    as [process_result|e1] eqn:Hp.
  - rewrite (query_soong_vars_run _ _ _ _ _ Hp). cbv zeta.
    destruct (negb (returncode process_result =? 0)%Z).
    { intros [= <- _] msg [= <-]. by left. }
    destruct (negb (Str.nonempty (stdout process_result))).
    { by intros [= <- _] msg. }
    unfold dumpvars_dict.
    destruct (for_res (dumpvars_lines (stdout process_result)) ∅ dumpvars_body)
      as [d|e2] eqn:Hloop; [done|].
    assert (e2 = IndexError) as ->.
    { revert Hloop. generalize (∅ : gmap string string).
      induction (dumpvars_lines (stdout process_result)) as [|l ls IH];
        intros d; simpl; [done|].
      unfold dumpvars_body at 1.
      destruct (dumpvars_entry_cases l) as [[[k v] ->]| ->]; simpl;
        [apply IH|by intros [= <-]]. }
    intros [= <- _] msg [= <-]. right. by eexists.
  - unfold _query_soong_vars. rewrite bind_run. simpl. rewrite bind_run.
    unfold call at 1. rewrite Hp. intros [= <- _] msg ->. by destruct (Hrun _ _ Hp).
Qed.

Ltac raises_only_step :=
  first
    [ apply raises_only_bind; [|intros ?]
    | apply raises_only_ret | apply raises_only_ask | apply raises_only_modify
    | apply raises_only_raise; by intros ? [=]
    | apply raises_only_attribute; by intros ? [=]
    | apply raises_only_open_w; by intros ? [=]
    | apply raises_only_for_each; intros ?
    | apply raises_only_lift;
      first [ by intros ? [=]
            | (intros ? ->%relpath_raises; by intros ? [=])
            | (intros ?; unfold not_none;
               match goal with |- match ?o with _ => _ end = _ → _ => destruct o end;
               by intros [= <-] ? [=]) ]
    | match goal with
      | |- raises_only _ _ (match ?x with _ => _ end) => destruct x
      end ].

(** X19: packaging never ends with the error of an empty archive.  When
    [subprocess.run] itself raises no [RuntimeError], every [RuntimeError]
    of [get_package_outputs_commands_impl] is one of the two of the
    configuration query: the process failed, or its output was not
    understood. *)
Theorem packaging_runtime_errors_from_query self w st msg st' :
  (∀ args m, subprocess_run w args ≠ Raise (RuntimeError m)) →
  GeneralTestsOptimizer.get_package_outputs_commands_impl self w st
  = (Raise (RuntimeError msg), st') →
  msg = dumpvars_failed ∨ ∃ out, msg = dumpvars_unparsed out.
Proof.
  intros Hrun Hraise.
  assert (raises_only w query_error
            (GeneralTestsOptimizer.get_package_outputs_commands_impl self))
    as Honly; [|by eapply Honly].
  pose proof (raises_only_query_soong_vars w) as Hquery.
  unfold GeneralTestsOptimizer.get_package_outputs_commands_impl,
    GeneralTestsOptimizer._get_zip_test_configs_zips_commands,
    GeneralTestsOptimizer.src_top_of_environ, environ_get, Path_of, emit, write.
  repeat first [ apply Hquery; exact Hrun | raises_only_step ].
Qed.

Lemma packaging_runtime_errors_from_query_witness :
  (GeneralTestsOptimizer.get_package_outputs_commands_impl
     optimized (dumpvars_world 1 "") scenario_selected).1
  = Raise (RuntimeError dumpvars_failed)
  ∧ (dumpvars_failed = dumpvars_failed
     ∨ ∃ out, dumpvars_failed = dumpvars_unparsed out).
Proof.
  assert ((GeneralTestsOptimizer.get_package_outputs_commands_impl
             optimized (dumpvars_world 1 "") scenario_selected).1
          = Raise (RuntimeError dumpvars_failed))
    as Hrun by (vm_compute; reflexivity).
  split; [exact Hrun|].
  apply (packaging_runtime_errors_from_query optimized (dumpvars_world 1 "")
           scenario_selected dumpvars_failed
           (GeneralTestsOptimizer.get_package_outputs_commands_impl
              optimized (dumpvars_world 1 "") scenario_selected).2).
  - intros args m. discriminate.
  - exact (run_eq _ _ Hrun).
Defined.

(** ** A catalog without a final newline *)

Lemma last_char_app a b : b ≠ "" → last_char (a +:+ b) = last_char b.
Proof.
  intros Hb. induction a as [|c a IH]; [done|].
  change (String c a +:+ b) with (String c (a +:+ b)). cbn [last_char].
  destruct (a +:+ b) eqn:Hab; [|done].
  destruct a; [|done]. by destruct b.
Qed.

Lemma endswith_last_char p s :
  p ≠ "" → Str.endswith p s = true → last_char s = last_char p.
Proof.
  intros Hp. induction s as [|a s IH]; simpl.
  - by case_decide.
  - case_decide as Heq; [by rewrite Heq|]. intros Hend.
    destruct s as [|b s]; [|by apply IH].
    simpl in Hend. by case_decide.
Qed.

Lemma last_char_endswith c s :
  last_char s = Some c → Str.endswith (String c "") s = true.
Proof.
  induction s as [|a s IH]; [done|]. cbn [last_char Str.endswith].
  destruct s as [|b s].
  - intros [= ->]. by rewrite decide_True.
  - intros Hlast. case_decide; [done|]. by apply IH.
Qed.

Lemma readlines_last text l :
  last (readlines text) = Some l → l ≠ "" ∧ last_char l = last_char text.
Proof.
  revert l. induction text as [|a text IH]; intros l; [done|].
  cbn [readlines]. destruct (decide (a = ascii_of_nat 10)) as [->|Hne].
  - destruct (readlines text) as [|l0 ls] eqn:Hlines.
    + intros [= <-]. split; [done|]. destruct text as [|b text]; [done|].
      simpl in Hlines. case_decide; [done|]. by destruct (readlines text).
    + intros Hlast. change (last (NL :: l0 :: ls)) with (last (l0 :: ls)) in Hlast.
      destruct (IH _ Hlast) as [Hl ->]. split; [done|]. by destruct text.
  - destruct (readlines text) as [|l0 ls] eqn:Hlines.
    + intros [= <-]. split; [done|]. destruct text as [|b text]; [done|].
      simpl in Hlines. case_decide; [done|]. by destruct (readlines text).
    + destruct ls as [|l1 ls].
      * intros [= <-]. destruct (IH l0 eq_refl) as [Hl0 Hlast].
        split; [done|]. cbn [last_char]. destruct l0; [done|].
        rewrite Hlast. by destruct text.
      * intros Hlast.
        change (last (String a l0 :: l1 :: ls)) with (last (l0 :: l1 :: ls))
          in Hlast.
        destruct (IH _ Hlast) as [Hl ->]. split; [done|]. by destruct text.
Qed.

Lemma universal_newlines_String a s :
  universal_newlines (String a s)
  = if decide (a = ascii_of_nat 13) then
      match s with
      | String b s'' =>
          if decide (b = ascii_of_nat 10)
          then String (ascii_of_nat 10) (universal_newlines s'')
          else String (ascii_of_nat 10) (universal_newlines s)
      | EmptyString => NL
      end
    else String a (universal_newlines s).
Proof. destruct s; reflexivity. Qed.

Lemma universal_newlines_empty s : universal_newlines s = "" → s = "".
Proof.
  destruct s as [|a s]; [done|]. rewrite universal_newlines_String.
  case_decide; [|done]. destruct s as [|b s]; [done|]. by case_decide.
Qed.

Lemma last_char_cons c t : t ≠ "" → last_char (String c t) = last_char t.
Proof. by destruct t. Qed.

(** Reading in text mode keeps the last character of a text, a carriage
    return at the end being read as a newline. *)
Lemma last_char_universal_newlines s :
  last_char (universal_newlines s)
  = (λ c, if decide (c = ascii_of_nat 13) then ascii_of_nat 10 else c)
      <$> last_char s.
Proof.
  remember (String.length s) as n eqn:Hn. revert s Hn.
  induction n as [n IH] using lt_wf_ind. intros s ->.
  destruct s as [|a s]; [done|]. rewrite universal_newlines_String.
  destruct s as [|b s].
  - cbn [last_char fmap option_fmap option_map].
    destruct (decide (a = ascii_of_nat 13)) as [Ha|Ha]; done.
  - assert (∀ t, t ≠ "" → universal_newlines t ≠ "") as Hne.
    { intros t Ht Hu. by apply universal_newlines_empty in Hu. }
    rewrite (last_char_cons a (String b s)) by done.
    destruct (decide (a = ascii_of_nat 13)) as [Ha|Ha].
    + destruct (decide (b = ascii_of_nat 10)) as [Hb|Hb].
      * subst b. destruct s as [|c s]; [done|].
        rewrite (last_char_cons _ (universal_newlines (String c s)))
          by (by apply Hne).
        assert (String.length (String c s)
                < String.length (String a (String (ascii_of_nat 10) (String c s))))
          as Hlt by (simpl; lia).
        rewrite (IH _ Hlt (String c s) eq_refl).
        reflexivity.
      * rewrite (last_char_cons _ (universal_newlines (String b s)))
          by (by apply Hne).
        assert (String.length (String b s)
                < String.length (String a (String b s))) as Hlt by (simpl; lia).
        by rewrite (IH _ Hlt (String b s) eq_refl).
    + rewrite (last_char_cons _ (universal_newlines (String b s)))
        by (by apply Hne).
      assert (String.length (String b s)
              < String.length (String a (String b s))) as Hlt by (simpl; lia).
      by rewrite (IH _ Hlt (String b s) eq_refl).
Qed.

(** X20: the last line of a catalog file that does not end with a line
    terminator, a newline or a carriage return, is never taken for a config
    file, whatever its name: a config file is recognised by the ending
    [.config] followed by the newline that [readlines] leaves on a line.
    The lines are those of the file as read in text mode. *)
Theorem unterminated_last_line_not_config text l src_top modules :
  last (readlines (universal_newlines text)) = Some l →
  Str.endswith NL text = false →
  Str.endswith CR text = false →
  pathlib.str src_top +:+ "/" +:+ l
  ∉ GeneralTestsOptimizer.config_files
      (GeneralTestsOptimizer.selected_outputs src_top modules
         (readlines (universal_newlines text))).
Proof.
  intros [Hl Hlast]%readlines_last Hnl Hcr Hin.
  unfold GeneralTestsOptimizer.config_files in Hin.
  apply list_elem_of_filter in Hin as [Hconfig _].
  apply Is_true_true in Hconfig.
  apply endswith_last_char in Hconfig; [|done].
  rewrite last_char_app in Hconfig by by destruct l.
  rewrite last_char_app, Hlast in Hconfig by done.
  change (last_char (".config" +:+ NL)) with (Some (ascii_of_nat 10)) in Hconfig.
  rewrite last_char_universal_newlines in Hconfig.
  destruct (last_char text) as [c|] eqn:Hc; [|done].
  apply last_char_endswith in Hc. simpl in Hconfig.
  case_decide as Hcase.
  - subst c. unfold CR in Hcr. by rewrite Hc in Hcr.
  - injection Hconfig as ->. unfold NL in Hnl. by rewrite Hc in Hnl.
Qed.

Lemma unterminated_last_line_not_config_witness :
  "/top" +:+ "/" +:+ "a/m1/x.config"
  ∉ GeneralTestsOptimizer.config_files
      (GeneralTestsOptimizer.selected_outputs (pathlib.of_str "/top") {[ "m1" ]}
         (readlines
            (universal_newlines ("a/m1/x" +:+ CR +:+ NL +:+ "a/m1/x.config")))).
Proof.
  apply (unterminated_last_line_not_config
           ("a/m1/x" +:+ CR +:+ NL +:+ "a/m1/x.config") "a/m1/x.config"
           (pathlib.of_str "/top") {[ "m1" ]}); reflexivity.
Defined.
